(** * Chat-room: the Supabase schema, its row-level policies, the React client

    A shallow embedding of
      - [supabase/migrations/20250916173834_scarlet_mud.sql]: the five tables,
        their constraints, the row-level-security policies and the signup
        trigger [handle_new_user];
      - [src/lib/supabase.ts]: [createChatRoom];
      - [src/components/ChatInterface.tsx]: [fetchRooms], [joinDefaultRooms],
        [createRoom] and the mock-room timer.

    Conventions.
      - A table is the list of its rows, in insertion order.
      - [uuid] and [text] are strings; a [timestamptz] is an integer number of
        milliseconds (its ISO-8601 rendering on the client is not modelled).
      - A nullable column is an [option]; the columns [is_private],
        [created_at], [updated_at], [joined_at], [role], [is_online] and
        [last_seen], which every writer in the repository leaves to their
        DEFAULT or sets to a value, are carried without the NULL case.
      - The values a DEFAULT produces ([gen_random_uuid()], [now()]) are
        arguments of the statement that needs them.
      - [auth.uid()] is an [option uuid]; the role [authenticated] is the
        session of a signed-in user, i.e. [auth.uid()] is not NULL.
      - Row-level security is enabled on every table: a statement is subject
        to the policies declared for its command, and a command for which the
        table declares no policy is denied.  A statement that reads the
        table it writes (a WHERE clause, RETURNING, ON CONFLICT DO UPDATE) is
        subject to the SELECT policies of the table as well.  Policies are
        expanded when the statement is rewritten, before any row is looked
        at: a policy that reads a table brings in the SELECT policies of that
        table, and a table met again on the way is an error (infinite
        recursion detected in policy, SQLSTATE 42P17).
      - A cast [text::bytea] reads the text as the input of a [bytea]: a
        backslash starts an escape, and a text with a bad escape is refused
        (SQLSTATE 22P02). *)

From Stdlib Require Import List String Ascii ZArith NArith Lia Bool Arith.
From Stdlib Require Import Sorted Permutation.
Import ListNotations.

Local Open Scope string_scope.
Local Open Scope list_scope.

(** ** PostgreSQL: errors and the built-in functions the migration calls *)

Module Pg.

Definition uuid := string.
Definition text := string.
Definition timestamptz := Z.

Inductive error : Type :=
| not_null_violation
| unique_violation
| foreign_key_violation
| check_violation
| rls_violation
| infinite_recursion                    (* 42P17, raised by the rewriter *)
| invalid_text_representation           (* 22P02, invalid input syntax *)
| invalid_hexadecimal_data.             (* a bad digit or an odd number *)

Inductive result (A : Type) : Type :=
| Ok (a : A)
| Err (e : error).
Arguments Ok {A} a.
Arguments Err {A} e.

Definition bind {A B : Type} (r : result A) (k : A -> result B) : result B :=
  match r with
  | Ok a => k a
  | Err e => Err e
  end.

(** [require b e] is the statement-aborting check: it goes on when [b]
    holds and raises [e] otherwise. *)
Definition require (b : bool) (e : error) : result unit :=
  if b then Ok tt else Err e.

Definition is_ok {A : Type} (r : result A) : bool :=
  match r with Ok _ => true | Err _ => false end.

(** SQL equality on a nullable left operand: [NULL = x] is not true. *)
Definition eq_nullable (a : option uuid) (b : uuid) : bool :=
  match a with
  | Some a' => String.eqb a' b
  | None => false
  end.

(** SQL equality of two nullable operands (used by [auth.uid() = created_by]):
    true only when both are non-NULL and equal. *)
Definition eq_nullable2 (a b : option uuid) : bool :=
  match a, b with
  | Some a', Some b' => String.eqb a' b'
  | _, _ => false
  end.

Definition COALESCE {A : Type} (a b : option A) : option A :=
  match a with
  | Some _ => a
  | None => b
  end.

(** The fields of [s] separated by the one-character delimiter [d]. *)
Fixpoint split_fields (s : string) (d : ascii) : list string :=
  match s with
  | EmptyString => [EmptyString]
  | String c r =>
      if Ascii.eqb c d then EmptyString :: split_fields r d
      else match split_fields r d with
           | f :: fs => String c f :: fs
           | [] => [String c EmptyString]
           end
  end.

(** [split_part(s, d, n)] for a one-character delimiter: the [n]-th field,
    counted from 1, and the empty string past the last field. *)
Definition split_part (s : string) (d : ascii) (n : nat) : string :=
  nth (n - 1) (split_fields s d) EmptyString.

(** [encode(bytes, 'base64')]: RFC 2045 base64, the output broken by a
    newline after every 76 characters (19 complete groups). *)
Definition base64_alphabet : list ascii :=
  list_ascii_of_string
    "ABCDEFGHIJKLMNOPQRSTUVWXYZabcdefghijklmnopqrstuvwxyz0123456789+/".

Definition base64_digit (n : N) : ascii :=
  nth (N.to_nat (N.land n 63)) base64_alphabet "="%char.

Definition newline : ascii := ascii_of_nat 10.

Fixpoint base64_lines (bytes : list ascii) (groups : nat) : list ascii :=
  match bytes with
  | [] => []
  | [a] =>
      let buf := N.shiftl (N_of_ascii a) 16 in
      [base64_digit (N.shiftr buf 18); base64_digit (N.shiftr buf 12);
       "="%char; "="%char]
  | [a; b] =>
      let buf := N.lor (N.shiftl (N_of_ascii a) 16)
                       (N.shiftl (N_of_ascii b) 8) in
      [base64_digit (N.shiftr buf 18); base64_digit (N.shiftr buf 12);
       base64_digit (N.shiftr buf 6); "="%char]
  | a :: b :: c :: rest =>
      let buf := N.lor (N.lor (N.shiftl (N_of_ascii a) 16)
                              (N.shiftl (N_of_ascii b) 8))
                       (N_of_ascii c) in
      let quad := [base64_digit (N.shiftr buf 18);
                   base64_digit (N.shiftr buf 12);
                   base64_digit (N.shiftr buf 6); base64_digit buf] in
      if Nat.eqb (S groups) 19
      then quad ++ newline :: base64_lines rest 0
      else quad ++ base64_lines rest (S groups)
  end.

Definition encode_base64 (s : string) : string :=
  string_of_list_ascii (base64_lines (list_ascii_of_string s) 0).

End Pg.

Notation "x <- r ;; k" := (Pg.bind r (fun x => k))
  (at level 61, r at next level, right associativity).
Notation "'check' b 'else' e ;; k" := (Pg.bind (Pg.require b e) (fun _ => k))
  (at level 61, b at next level, e at next level, right associativity).

(** ** The schema: one module per table, fields named after the columns *)

Import Pg.

(** ** The cast of a text to [bytea]

    [text::bytea] goes through the input function of [bytea]: a text that
    starts with a backslash and an x is hexadecimal; any other text is in the
    escape format, where a backslash must be followed by a second backslash
    or by three octal digits, the first at most 3. *)

Module Bytea.

Definition backslash : ascii := ascii_of_nat 92.

(** The value of [c] as a digit between 0 and [top]. *)
Definition digit (top : N) (c : ascii) : option N :=
  let n := N_of_ascii c in
  if ((48 <=? n) && (n <=? 48 + top))%N then Some (n - 48)%N else None.

(** 0-9, a-f and A-F. *)
Definition hex_value (c : ascii) : option N :=
  let n := N_of_ascii c in
  if ((48 <=? n) && (n <=? 57))%N then Some (n - 48)%N
  else if ((97 <=? n) && (n <=? 102))%N then Some (n - 87)%N
  else if ((65 <=? n) && (n <=? 70))%N then Some (n - 55)%N
  else None.

(** Space, newline, tab and carriage return are skipped between two bytes. *)
Definition is_space (c : ascii) : bool :=
  let n := N_of_ascii c in
  ((n =? 32) || (n =? 10) || (n =? 9) || (n =? 13))%N.

Fixpoint hex_decode (s : string) : result string :=
  match s with
  | EmptyString => Ok EmptyString
  | String c r =>
      if is_space c then hex_decode r
      else
        match hex_value c, r with
        | None, _ => Err invalid_hexadecimal_data
        | Some _, EmptyString => Err invalid_hexadecimal_data
        | Some v1, String c2 r2 =>
            match hex_value c2 with
            | None => Err invalid_hexadecimal_data
            | Some v2 =>
                rest <- hex_decode r2 ;;
                Ok (String (ascii_of_N (16 * v1 + v2)) rest)
            end
        end
  end.

Fixpoint escape_decode (s : string) : result string :=
  match s with
  | EmptyString => Ok EmptyString
  | String c r =>
      if negb (Ascii.eqb c backslash)
      then rest <- escape_decode r ;; Ok (String c rest)
      else
        match r with
        | EmptyString => Err invalid_text_representation
        | String d1 r1 =>
            let doubled :=
              if Ascii.eqb d1 backslash
              then rest <- escape_decode r1 ;; Ok (String backslash rest)
              else Err invalid_text_representation in
            match r1 with
            | String d2 (String d3 r3) =>
                match digit 3 d1, digit 7 d2, digit 7 d3 with
                | Some a, Some b, Some c3 =>
                    rest <- escape_decode r3 ;;
                    Ok (String (ascii_of_N (64 * a + 8 * b + c3)) rest)
                | _, _, _ => doubled
                end
            | _ => doubled
            end
        end
  end.

Definition bytea_in (s : string) : result string :=
  match s with
  | String c (String x r) =>
      if Ascii.eqb c backslash && Ascii.eqb x "x"%char
      then hex_decode r
      else escape_decode s
  | _ => escape_decode s
  end.

End Bytea.

(** [auth.users], as far as the migration reads it: [new.id], [new.email] and
    the text values of [new.raw_user_meta_data]. *)
Module AuthUsers.
Record row : Type := {
  id : uuid;
  email : option text;
  raw_user_meta_data : list (string * text)
}.
End AuthUsers.

Module Profiles.
Record row : Type := {
  id : uuid;                    (* REFERENCES auth.users(id) PRIMARY KEY *)
  username : option text;       (* UNIQUE *)
  avatar_url : option text;
  email : option text;
  last_seen : timestamptz;      (* DEFAULT now() *)
  is_online : bool;             (* DEFAULT false *)
  created_at : timestamptz;     (* DEFAULT now() *)
  updated_at : timestamptz      (* DEFAULT now() *)
}.
End Profiles.

Module ChatRooms.
Record row : Type := {
  id : uuid;                    (* PRIMARY KEY DEFAULT gen_random_uuid() *)
  name : text;                  (* NOT NULL *)
  description : option text;
  created_by : option uuid;     (* REFERENCES auth.users(id) *)
  is_private : bool;            (* DEFAULT false *)
  created_at : timestamptz;     (* DEFAULT now() *)
  updated_at : timestamptz      (* DEFAULT now() *)
}.

(** The values of an INSERT; a column left out or NULL is [None]. *)
Record values : Type := {
  v_name : option text;
  v_description : option text;
  v_created_by : option uuid;
  v_is_private : option bool
}.

(** The SET list of an UPDATE; a column that is not assigned is [None]. *)
Record assignment : Type := {
  set_name : option text;
  set_description : option (option text);
  set_created_by : option (option uuid);
  set_is_private : option bool
}.
End ChatRooms.

Module Messages.
Record row : Type := {
  id : uuid;                    (* PRIMARY KEY DEFAULT gen_random_uuid() *)
  content : text;               (* NOT NULL *)
  user_id : uuid;               (* REFERENCES auth.users(id) NOT NULL *)
  room_id : uuid;               (* REFERENCES chat_rooms(id) NOT NULL *)
  reply_to : option uuid;       (* REFERENCES messages(id) *)
  edited_at : option timestamptz;
  created_at : timestamptz      (* DEFAULT now() *)
}.

(** The values of an INSERT; both required keys are supplied. *)
Record values : Type := {
  v_content : option text;
  v_user_id : uuid;
  v_room_id : uuid;
  v_reply_to : option uuid
}.

Record assignment : Type := {
  set_content : option text;
  set_edited_at : option (option timestamptz);
  set_created_at : option timestamptz
}.
End Messages.

Module RoomMembers.
Record row : Type := {
  id : uuid;                    (* PRIMARY KEY DEFAULT gen_random_uuid() *)
  room_id : uuid;               (* REFERENCES chat_rooms(id) NOT NULL *)
  user_id : uuid;               (* REFERENCES auth.users(id) NOT NULL *)
  role : text;                  (* DEFAULT 'member', CHECK below *)
  joined_at : timestamptz       (* DEFAULT now() *)
}.

Record values : Type := {
  v_room_id : uuid;
  v_user_id : uuid;
  v_role : option text
}.

(** [CHECK (role IN ('admin', 'moderator', 'member'))] *)
Definition role_check (r : text) : bool :=
  String.eqb r "admin" || String.eqb r "moderator" || String.eqb r "member".
End RoomMembers.

Module MessageReactions.
Record row : Type := {
  id : uuid;                    (* PRIMARY KEY DEFAULT gen_random_uuid() *)
  message_id : uuid;            (* REFERENCES messages(id) NOT NULL *)
  user_id : uuid;               (* REFERENCES auth.users(id) NOT NULL *)
  emoji : text;                 (* NOT NULL *)
  created_at : timestamptz      (* DEFAULT now() *)
}.
End MessageReactions.

Record Db : Type := {
  auth_users : list AuthUsers.row;
  profiles : list Profiles.row;
  chat_rooms : list ChatRooms.row;
  messages : list Messages.row;
  room_members : list RoomMembers.row;
  message_reactions : list MessageReactions.row
}.

Definition with_auth_users (l : list AuthUsers.row) (db : Db) : Db :=
  {| auth_users := l; profiles := profiles db; chat_rooms := chat_rooms db;
     messages := messages db; room_members := room_members db;
     message_reactions := message_reactions db |}.

Definition with_profiles (l : list Profiles.row) (db : Db) : Db :=
  {| auth_users := auth_users db; profiles := l; chat_rooms := chat_rooms db;
     messages := messages db; room_members := room_members db;
     message_reactions := message_reactions db |}.

Definition with_chat_rooms (l : list ChatRooms.row) (db : Db) : Db :=
  {| auth_users := auth_users db; profiles := profiles db; chat_rooms := l;
     messages := messages db; room_members := room_members db;
     message_reactions := message_reactions db |}.

Definition with_messages (l : list Messages.row) (db : Db) : Db :=
  {| auth_users := auth_users db; profiles := profiles db;
     chat_rooms := chat_rooms db; messages := l;
     room_members := room_members db;
     message_reactions := message_reactions db |}.

Definition with_room_members (l : list RoomMembers.row) (db : Db) : Db :=
  {| auth_users := auth_users db; profiles := profiles db;
     chat_rooms := chat_rooms db; messages := messages db; room_members := l;
     message_reactions := message_reactions db |}.

Definition with_message_reactions (l : list MessageReactions.row) (db : Db)
  : Db :=
  {| auth_users := auth_users db; profiles := profiles db;
     chat_rooms := chat_rooms db; messages := messages db;
     room_members := room_members db; message_reactions := l |}.

(** Key lookups used by the PRIMARY KEY, UNIQUE and REFERENCES constraints. *)
Definition has_key (k : uuid) (keys : list uuid) : bool :=
  existsb (String.eqb k) keys.

Definition user_exists (db : Db) (u : uuid) : bool :=
  has_key u (map AuthUsers.id (auth_users db)).

Definition room_exists (db : Db) (r : uuid) : bool :=
  has_key r (map ChatRooms.id (chat_rooms db)).

Definition message_exists (db : Db) (m : uuid) : bool :=
  has_key m (map Messages.id (messages db)).

(** [UNIQUE(username)] on [profiles]: NULL collides with nothing. *)
Definition username_taken (db : Db) (username : option text) : bool :=
  existsb (fun q => match username, Profiles.username q with
                    | Some a, Some b => String.eqb a b
                    | _, _ => false
                    end)
          (profiles db).

(** A nullable foreign key is satisfied by NULL. *)
Definition fk_nullable (exists_in : uuid -> bool) (k : option uuid) : bool :=
  match k with
  | Some k' => exists_in k'
  | None => true
  end.

(** The row of [room_members] for a (room, user) pair, the subject of
    [UNIQUE(room_id, user_id)]. *)
Definition is_membership (r u : uuid) (m : RoomMembers.row) : bool :=
  String.eqb (RoomMembers.room_id m) r && String.eqb (RoomMembers.user_id m) u.

Definition memberships (db : Db) (r u : uuid) : list RoomMembers.row :=
  filter (is_membership r u) (room_members db).

(** The rows of [message_reactions] for a (message, user, emoji) triple, the
    subject of [UNIQUE(message_id, user_id, emoji)]. *)
Definition is_reaction (m u : uuid) (e : text) (x : MessageReactions.row)
  : bool :=
  String.eqb (MessageReactions.message_id x) m
  && String.eqb (MessageReactions.user_id x) u
  && String.eqb (MessageReactions.emoji x) e.

Definition reactions (db : Db) (m u : uuid) (e : text)
  : list MessageReactions.row :=
  filter (is_reaction m u e) (message_reactions db).

(** ** Row-level security: the policies of the migration, by table *)

Module Policy.

(** [TO authenticated] *)
Definition authenticated (uid : option uuid) : bool :=
  match uid with Some _ => true | None => false end.

(** "Chat rooms are viewable by everyone": FOR SELECT USING (true) *)
Definition chat_rooms_select (uid : option uuid) (r : ChatRooms.row)
  : bool := true.

(** "Authenticated users can create rooms":
    FOR INSERT TO authenticated WITH CHECK (true) *)
Definition chat_rooms_insert (uid : option uuid) (v : ChatRooms.values)
  : bool := authenticated uid && true.

(** "Room creators can update their rooms":
    FOR UPDATE USING (auth.uid() = created_by).  The policy has no WITH
    CHECK, so the same expression is applied to the updated row. *)
Definition chat_rooms_update (uid : option uuid) (r : ChatRooms.row)
  : bool := eq_nullable2 uid (ChatRooms.created_by r).

(** "Messages are viewable by room members": FOR SELECT USING
    (EXISTS (room_members of the message's room and auth.uid())
     OR EXISTS (chat_rooms with the message's room id, is_private = false)) *)
Definition messages_select (db : Db) (uid : option uuid) (m : Messages.row)
  : bool :=
  existsb (fun rm => String.eqb (RoomMembers.room_id rm) (Messages.room_id m)
                     && eq_nullable uid (RoomMembers.user_id rm))
          (room_members db)
  || existsb (fun r => String.eqb (ChatRooms.id r) (Messages.room_id m)
                       && Bool.eqb (ChatRooms.is_private r) false)
             (chat_rooms db).

(** "Authenticated users can insert messages":
    FOR INSERT TO authenticated WITH CHECK (auth.uid() = user_id) *)
Definition messages_insert (uid : option uuid) (v : Messages.values)
  : bool :=
  authenticated uid && eq_nullable uid (Messages.v_user_id v).

(** "Users can update their own messages":
    FOR UPDATE USING (auth.uid() = user_id) *)
Definition messages_update (uid : option uuid) (m : Messages.row) : bool :=
  eq_nullable uid (Messages.user_id m).

(** "Users can join public rooms": FOR INSERT TO authenticated WITH CHECK
    (auth.uid() = user_id AND EXISTS (chat_rooms with id = room_id and
    is_private = false)) *)
Definition room_members_insert (db : Db) (uid : option uuid)
    (m : RoomMembers.row) : bool :=
  authenticated uid
  && (eq_nullable uid (RoomMembers.user_id m)
      && existsb (fun r => String.eqb (ChatRooms.id r) (RoomMembers.room_id m)
                           && Bool.eqb (ChatRooms.is_private r) false)
                 (chat_rooms db)).

(** [room_members] declares no UPDATE and no DELETE policy. *)
Definition room_members_update (uid : option uuid) (m : RoomMembers.row)
  : bool := false.

(** "Users can manage their own reactions":
    FOR ALL USING (auth.uid() = user_id) WITH CHECK (auth.uid() = user_id) *)
Definition message_reactions_all (uid : option uuid)
    (x : MessageReactions.row) : bool :=
  eq_nullable uid (MessageReactions.user_id x).

End Policy.

(** ** The expansion of the policies when a statement is rewritten *)

Module Rewriter.

Inductive relation : Type :=
| profiles_t
| chat_rooms_t
| messages_t
| room_members_t
| message_reactions_t.

Definition same_relation (a b : relation) : bool :=
  match a, b with
  | profiles_t, profiles_t => true
  | chat_rooms_t, chat_rooms_t => true
  | messages_t, messages_t => true
  | room_members_t, room_members_t => true
  | message_reactions_t, message_reactions_t => true
  | _, _ => false
  end.

(** The tables the SELECT policies of a table read in subqueries:
    "Messages are viewable by room members" reads [room_members] and
    [chat_rooms]; "Room members are viewable by room members" reads
    [room_members]; "Reactions are viewable by room members" reads [messages]
    and [room_members]; the policies of [profiles] and [chat_rooms], and the
    FOR ALL policy of [message_reactions], read none. *)
Definition select_policy_reads (t : relation) : list relation :=
  match t with
  | profiles_t => []
  | chat_rooms_t => []
  | messages_t => [room_members_t; chat_rooms_t]
  | room_members_t => [room_members_t]
  | message_reactions_t => [messages_t; room_members_t]
  end.

(** The tables the INSERT policy of a table reads: "Users can join public
    rooms" reads [chat_rooms]. *)
Definition insert_policy_reads (t : relation) : list relation :=
  match t with
  | room_members_t => [chat_rooms_t]
  | _ => []
  end.

(** Expanding the SELECT policies of [t] while the tables of [active] are
    being expanded: it fails on a table that is active already.  The depth
    never exceeds the number of tables, which [fuel] covers. *)
Fixpoint expands (fuel : nat) (active : list relation) (t : relation)
  : bool :=
  match fuel with
  | O => false
  | S fuel' =>
      negb (existsb (same_relation t) active)
      && forallb (expands fuel' (t :: active)) (select_policy_reads t)
  end.

Definition select_expands (t : relation) : bool := expands 6 [] t.

Inductive statement : Type :=
| select_from
| plain_insert               (* INSERT without RETURNING *)
| insert_returning
| insert_on_conflict_update
| update_where
| delete_where.

(** Whether a statement on [t] is rewritten without error.  A plain INSERT
    brings in the INSERT policy only; the other statements read [t] and
    bring in its SELECT policies too. *)
Definition rewrites (s : statement) (t : relation) : bool :=
  forallb select_expands
    (match s with
     | plain_insert => insert_policy_reads t
     | insert_returning | insert_on_conflict_update =>
         t :: insert_policy_reads t
     | select_from | update_where | delete_where => [t]
     end).

End Rewriter.

(** ** The SQL statements the application issues, under constraints and policies

    A statement is rewritten first.  An INSERT then evaluates, in this order,
    the WITH CHECK of the INSERT policy, the NOT NULL and CHECK constraints,
    the PRIMARY KEY and UNIQUE indexes and the foreign keys; the first failure
    aborts the statement and leaves the database as it was.  An UPDATE or
    DELETE silently skips the rows its USING expression rejects. *)

Module Sql.

Definition from_default {A : Type} (v : option A) (default : A) : A :=
  match v with
  | Some a => a
  | None => default
  end.

(** [INSERT INTO chat_rooms (...) VALUES (...) RETURNING *] *)
Definition insert_chat_rooms (uid : option uuid) (new_id : uuid)
    (now : timestamptz) (v : ChatRooms.values) (db : Db)
  : result (Db * ChatRooms.row) :=
  check Policy.chat_rooms_insert uid v else rls_violation ;;
  match ChatRooms.v_name v with
  | None => Err not_null_violation
  | Some n =>
      let r := {| ChatRooms.id := new_id;
                  ChatRooms.name := n;
                  ChatRooms.description := ChatRooms.v_description v;
                  ChatRooms.created_by := ChatRooms.v_created_by v;
                  ChatRooms.is_private :=
                    from_default (ChatRooms.v_is_private v) false;
                  ChatRooms.created_at := now;
                  ChatRooms.updated_at := now |} in
      check negb (room_exists db new_id) else unique_violation ;;
      check fk_nullable (user_exists db) (ChatRooms.v_created_by v)
        else foreign_key_violation ;;
      Ok (with_chat_rooms (chat_rooms db ++ [r]) db, r)
  end.

Definition assign_chat_room (a : ChatRooms.assignment) (r : ChatRooms.row)
  : ChatRooms.row :=
  {| ChatRooms.id := ChatRooms.id r;
     ChatRooms.name := from_default (ChatRooms.set_name a) (ChatRooms.name r);
     ChatRooms.description :=
       from_default (ChatRooms.set_description a) (ChatRooms.description r);
     ChatRooms.created_by :=
       from_default (ChatRooms.set_created_by a) (ChatRooms.created_by r);
     ChatRooms.is_private :=
       from_default (ChatRooms.set_is_private a) (ChatRooms.is_private r);
     ChatRooms.created_at := ChatRooms.created_at r;
     ChatRooms.updated_at := ChatRooms.updated_at r |}.

(** [UPDATE chat_rooms SET ... WHERE id = rid]: the rows that pass USING are
    assigned; each new row must pass the policy again and keep its foreign
    key. *)
Definition update_chat_rooms (uid : option uuid) (rid : uuid)
    (a : ChatRooms.assignment) (db : Db) : result Db :=
  let hit := fun r => String.eqb (ChatRooms.id r) rid
                      && Policy.chat_rooms_update uid r in
  let updated := map (assign_chat_room a) (filter hit (chat_rooms db)) in
  check forallb (Policy.chat_rooms_update uid) updated else rls_violation ;;
  check forallb (fun r => fk_nullable (user_exists db) (ChatRooms.created_by r))
                updated
    else foreign_key_violation ;;
  Ok (with_chat_rooms
        (map (fun r => if hit r then assign_chat_room a r else r)
             (chat_rooms db))
        db).

(** [SELECT * FROM chat_rooms] *)
Definition select_chat_rooms (uid : option uuid) (db : Db)
  : list ChatRooms.row :=
  filter (Policy.chat_rooms_select uid) (chat_rooms db).

(** [ORDER BY created_at ASC], as a insertion sort. *)
Fixpoint insert_by_created_at (r : ChatRooms.row) (l : list ChatRooms.row)
  : list ChatRooms.row :=
  match l with
  | [] => [r]
  | x :: l' =>
      if (ChatRooms.created_at r <=? ChatRooms.created_at x)%Z
      then r :: x :: l'
      else x :: insert_by_created_at r l'
  end.

Definition order_by_created_at (l : list ChatRooms.row)
  : list ChatRooms.row :=
  fold_right (fun r acc => insert_by_created_at r acc) [] l.

(** The row an INSERT into [messages] proposes. *)
Definition message_row (new_id : uuid) (now : timestamptz) (content : text)
    (v : Messages.values) : Messages.row :=
  {| Messages.id := new_id;
     Messages.content := content;
     Messages.user_id := Messages.v_user_id v;
     Messages.room_id := Messages.v_room_id v;
     Messages.reply_to := Messages.v_reply_to v;
     Messages.edited_at := None;
     Messages.created_at := now |}.

(** [INSERT INTO messages (...) VALUES (...)], without RETURNING.  The
    foreign keys are checked with the row in the table, so that a message
    may name itself in [reply_to]. *)
Definition insert_messages (uid : option uuid) (new_id : uuid)
    (now : timestamptz) (v : Messages.values) (db : Db) : result Db :=
  check Rewriter.rewrites Rewriter.plain_insert Rewriter.messages_t
    else infinite_recursion ;;
  check Policy.messages_insert uid v else rls_violation ;;
  match Messages.v_content v with
  | None => Err not_null_violation
  | Some c =>
      let db' :=
        with_messages (messages db ++ [message_row new_id now c v]) db in
      check negb (message_exists db new_id) else unique_violation ;;
      check user_exists db' (Messages.v_user_id v)
            && room_exists db' (Messages.v_room_id v)
            && fk_nullable (message_exists db') (Messages.v_reply_to v)
        else foreign_key_violation ;;
      Ok db'
  end.

(** [INSERT INTO messages (...) VALUES (...) RETURNING *], the statement of
    an [insert(...).select()]: it reads [messages]. *)
Definition insert_messages_returning (uid : option uuid) (new_id : uuid)
    (now : timestamptz) (v : Messages.values) (db : Db)
  : result (Db * option Messages.row) :=
  check Rewriter.rewrites Rewriter.insert_returning Rewriter.messages_t
    else infinite_recursion ;;
  db' <- insert_messages uid new_id now v db ;;
  Ok (db', hd_error (filter (fun m => String.eqb (Messages.id m) new_id)
                            (messages db'))).

Definition assign_message (a : Messages.assignment) (m : Messages.row)
  : Messages.row :=
  {| Messages.id := Messages.id m;
     Messages.content :=
       from_default (Messages.set_content a) (Messages.content m);
     Messages.user_id := Messages.user_id m;
     Messages.room_id := Messages.room_id m;
     Messages.reply_to := Messages.reply_to m;
     Messages.edited_at :=
       from_default (Messages.set_edited_at a) (Messages.edited_at m);
     Messages.created_at :=
       from_default (Messages.set_created_at a) (Messages.created_at m) |}.

(** [UPDATE messages SET ... WHERE id = mid RETURNING *]: it reads
    [messages].  No assignment touches [user_id], so an updated row passes
    the policy again. *)
Definition update_messages (uid : option uuid) (mid : uuid)
    (a : Messages.assignment) (db : Db)
  : result (Db * list Messages.row) :=
  let hit := fun m => String.eqb (Messages.id m) mid
                      && Policy.messages_update uid m in
  check Rewriter.rewrites Rewriter.update_where Rewriter.messages_t
    else infinite_recursion ;;
  Ok (with_messages
        (map (fun m => if hit m then assign_message a m else m) (messages db))
        db,
      map (assign_message a) (filter hit (messages db))).

(** [INSERT INTO room_members (room_id, user_id, role) VALUES (...)
     ON CONFLICT (room_id, user_id) DO UPDATE SET room_id = EXCLUDED.room_id,
     user_id = EXCLUDED.user_id, role = EXCLUDED.role], the statement of the
    client's [upsert(..., { onConflict: 'room_id,user_id' })].  The statement
    reads [room_members], to find the row in conflict; the proposed row is
    checked against the INSERT policy; when the pair has a row
    already, the statement takes the UPDATE path, which is subject to the
    UPDATE policies of the table and is refused with an error, not skipped,
    when the existing row does not pass them. *)
Definition upsert_room_members (uid : option uuid) (new_id : uuid)
    (now : timestamptz) (v : RoomMembers.values) (db : Db) : result Db :=
  let m := {| RoomMembers.id := new_id;
              RoomMembers.room_id := RoomMembers.v_room_id v;
              RoomMembers.user_id := RoomMembers.v_user_id v;
              RoomMembers.role := from_default (RoomMembers.v_role v) "member";
              RoomMembers.joined_at := now |} in
  let conflicts := is_membership (RoomMembers.v_room_id v)
                                 (RoomMembers.v_user_id v) in
  check Rewriter.rewrites Rewriter.insert_on_conflict_update
          Rewriter.room_members_t
    else infinite_recursion ;;
  check Policy.room_members_insert db uid m else rls_violation ;;
  check RoomMembers.role_check (RoomMembers.role m) else check_violation ;;
  if existsb conflicts (room_members db)
  then
    check forallb (Policy.room_members_update uid)
                  (filter conflicts (room_members db))
      else rls_violation ;;
    Ok (with_room_members
          (map (fun x => if conflicts x
                         then {| RoomMembers.id := RoomMembers.id x;
                                 RoomMembers.room_id := RoomMembers.room_id m;
                                 RoomMembers.user_id := RoomMembers.user_id m;
                                 RoomMembers.role := RoomMembers.role m;
                                 RoomMembers.joined_at :=
                                   RoomMembers.joined_at x |}
                         else x)
               (room_members db))
          db)
  else
    check negb (has_key new_id (map RoomMembers.id (room_members db)))
      else unique_violation ;;
    check room_exists db (RoomMembers.room_id m)
          && user_exists db (RoomMembers.user_id m)
      else foreign_key_violation ;;
    Ok (with_room_members (room_members db ++ [m]) db).

(** [INSERT INTO message_reactions (message_id, user_id, emoji)
     VALUES (...)], without RETURNING. *)
Definition insert_message_reactions (uid : option uuid) (new_id : uuid)
    (now : timestamptz) (m u : uuid) (e : text) (db : Db) : result Db :=
  let x := {| MessageReactions.id := new_id;
              MessageReactions.message_id := m;
              MessageReactions.user_id := u;
              MessageReactions.emoji := e;
              MessageReactions.created_at := now |} in
  check Rewriter.rewrites Rewriter.plain_insert Rewriter.message_reactions_t
    else infinite_recursion ;;
  check Policy.message_reactions_all uid x else rls_violation ;;
  check negb (has_key new_id
                (map MessageReactions.id (message_reactions db)))
        && negb (existsb (is_reaction m u e) (message_reactions db))
    else unique_violation ;;
  check message_exists db m && user_exists db u
    else foreign_key_violation ;;
  Ok (with_message_reactions (message_reactions db ++ [x]) db).

(** [DELETE FROM message_reactions
     WHERE message_id = m AND user_id = u AND emoji = e]: it reads
    [message_reactions]. *)
Definition try_delete_message_reactions (uid : option uuid) (m u : uuid)
    (e : text) (db : Db) : result Db :=
  check Rewriter.rewrites Rewriter.delete_where Rewriter.message_reactions_t
    else infinite_recursion ;;
  Ok (with_message_reactions
        (filter (fun x => negb (is_reaction m u e x
                                && Policy.message_reactions_all uid x))
                (message_reactions db))
        db).

(** The database after that DELETE, which is the database before it when the
    statement is refused. *)
Definition delete_message_reactions (uid : option uuid) (m u : uuid)
    (e : text) (db : Db) : Db :=
  match try_delete_message_reactions uid m u e db with
  | Ok db' => db'
  | Err _ => db
  end.

(** [INSERT INTO public.profiles (id, username, email, avatar_url)] as run
    by a SECURITY DEFINER function: constraints apply, policies do not.
    Two NULL usernames do not collide. *)
Definition insert_profiles_definer (now : timestamptz) (id : uuid)
    (username email avatar_url : option text) (db : Db) : result Db :=
  let p := {| Profiles.id := id;
              Profiles.username := username;
              Profiles.avatar_url := avatar_url;
              Profiles.email := email;
              Profiles.last_seen := now;
              Profiles.is_online := false;
              Profiles.created_at := now;
              Profiles.updated_at := now |} in
  check negb (has_key id (map Profiles.id (profiles db)))
        && negb (username_taken db username)
    else unique_violation ;;
  check user_exists db id else foreign_key_violation ;;
  Ok (with_profiles (profiles db ++ [p]) db).

End Sql.

(** ** The signup trigger *)

Module Trigger.

(** [meta ->> key]: the text of a JSON member, NULL when it is absent. *)
Fixpoint json_text (meta : list (string * text)) (key : string)
  : option text :=
  match meta with
  | [] => None
  | (k, v) :: rest => if String.eqb k key then Some v else json_text rest key
  end.

(** A string operator applied to a NULL operand is NULL. *)
Definition strict {A B : Type} (f : A -> B) (a : option A) : option B :=
  match a with
  | Some x => Some (f x)
  | None => None
  end.

Definition dicebear : string :=
  "https://api.dicebear.com/7.x/initials/svg?seed=".

(** [COALESCE(new.raw_user_meta_data->>'username',
              split_part(new.email, '@', 1))] *)
Definition username_of (new : AuthUsers.row) : option text :=
  COALESCE (json_text (AuthUsers.raw_user_meta_data new) "username")
           (strict (fun e => split_part e "@" 1) (AuthUsers.email new)).

(** [COALESCE(new.raw_user_meta_data->>'avatar_url',
              'https://...seed=' || encode(new.email::bytea, 'base64'))].
    COALESCE evaluates its second argument only when the first is NULL; the
    cast of the email to [bytea] can then fail. *)
Definition avatar_url_of (new : AuthUsers.row) : result (option text) :=
  match json_text (AuthUsers.raw_user_meta_data new) "avatar_url" with
  | Some url => Ok (Some url)
  | None =>
      match AuthUsers.email new with
      | None => Ok None
      | Some e =>
          bytes <- Bytea.bytea_in e ;;
          Ok (Some (dicebear ++ encode_base64 bytes)%string)
      end
  end.

(** [public.handle_new_user()], on the row [new] of [auth.users]: the values
    are computed, then the row is inserted. *)
Definition handle_new_user (now : timestamptz) (new : AuthUsers.row)
    (db : Db) : result Db :=
  avatar_url <- avatar_url_of new ;;
  Sql.insert_profiles_definer now
    (AuthUsers.id new) (username_of new) (AuthUsers.email new) avatar_url db.

(** [on_auth_user_created]: AFTER INSERT ON auth.users FOR EACH ROW.  The
    trigger runs inside the inserting statement, so an error it raises
    aborts the signup as a whole. *)
Definition insert_auth_users (now : timestamptz) (new : AuthUsers.row)
    (db : Db) : result Db :=
  check negb (user_exists db (AuthUsers.id new)) else unique_violation ;;
  handle_new_user now new (with_auth_users (auth_users db ++ [new]) db).

End Trigger.

(** ** The client: [ChatInterface.tsx] and [lib/supabase.ts] *)

Module Client.

(** [interface ChatRoom] *)
Record ChatRoom : Type := {
  id : string;
  name : string;
  description : option string;
  created_at : timestamptz
}.

Definition of_row (r : ChatRooms.row) : ChatRoom :=
  {| id := ChatRooms.id r;
     name := ChatRooms.name r;
     description := ChatRooms.description r;
     created_at := ChatRooms.created_at r |}.

(** The state of the component: the two [useState] cells the room functions
    write, and the mock-room effect, i.e. the value of its dependency
    [rooms.length] when it last ran (which is also the [rooms.length] its
    timer callback reads) and the time at which its pending timer fires. *)
Record Component : Type := {
  rooms : list ChatRoom;
  activeRoom : option ChatRoom;
  effect_length : nat;
  timeout : option Z
}.

(** First render and first run of the effects, at time [t]. *)
Definition mount (t : Z) : Component :=
  {| rooms := []; activeRoom := None; effect_length := 0;
     timeout := Some (t + 3000)%Z |}.

(** [setRooms(l)] at time [t], and the render that follows: when
    [rooms.length] differs from the dependency of the effect, its cleanup
    clears the pending timer and the effect sets a new one. *)
Definition setRooms (t : Z) (l : list ChatRoom) (c : Component)
  : Component :=
  if Nat.eqb (List.length l) (effect_length c)
  then {| rooms := l; activeRoom := activeRoom c;
          effect_length := effect_length c; timeout := timeout c |}
  else {| rooms := l; activeRoom := activeRoom c;
          effect_length := List.length l; timeout := Some (t + 3000)%Z |}.

Definition setActiveRoom (r : option ChatRoom) (c : Component) : Component :=
  {| rooms := rooms c; activeRoom := r;
     effect_length := effect_length c; timeout := timeout c |}.

(** [mockRooms]; [date k] is the value of the [k]-th [new Date()]. *)
Definition mockRooms (date : nat -> timestamptz) : list ChatRoom :=
  [ {| id := "1"; name := "general";
       description := Some "General discussion for everyone";
       created_at := date 0 |};
    {| id := "2"; name := "random";
       description := Some "Random conversations and off-topic chat";
       created_at := date 1 |};
    {| id := "3"; name := "tech-talk";
       description :=
         Some "Discuss technology, programming, and development";
       created_at := date 2 |};
    {| id := "4"; name := "announcements";
       description := Some "Important announcements and updates";
       created_at := date 3 |} ].

(** The callback of [setTimeout(..., 3000)], run at time [t]. *)
Definition on_timeout (t : Z) (date : nat -> timestamptz) (c : Component)
  : Component :=
  let c := {| rooms := rooms c; activeRoom := activeRoom c;
              effect_length := effect_length c; timeout := None |} in
  if Nat.eqb (effect_length c) 0
  then setActiveRoom (nth_error (mockRooms date) 0)
                     (setRooms t (mockRooms date) c)
  else c.

(** The event loop at time [t]: a pending timer that is due runs its
    callback; nothing happens before that. *)
Definition tick (t : Z) (date : nat -> timestamptz) (c : Component)
  : Component :=
  match timeout c with
  | Some due => if (due <=? t)%Z then on_timeout t date c else c
  | None => c
  end.

(** What the query of [fetchRooms] resolves to. *)
Inductive response : Type :=
| failed                                  (* [error] is set, or it threw *)
| resolved (data : option (list ChatRooms.row)).

(** The backend returned no rooms: the query failed, or resolved to no data
    or to an empty list. *)
Definition no_rooms (r : response) : bool :=
  match r with
  | failed => true
  | resolved None => true
  | resolved (Some []) => true
  | resolved (Some (_ :: _)) => false
  end.

(** The query of [fetchRooms]:
    [from('chat_rooms').select('*').order('created_at', {ascending: true})] *)
Definition listRooms (uid : option uuid) (db : Db) : list ChatRooms.row :=
  Sql.order_by_created_at (Sql.select_chat_rooms uid db).

(** The continuation of [fetchRooms] at time [t].  [fetchRooms] is called by
    the mount effect only, so the [activeRoom] it tests is the one of the
    first render, [null]. *)
Definition fetchRooms (t : Z) (r : response) (c : Component) : Component :=
  match r with
  | failed => c
  | resolved None => c
  | resolved (Some data) =>
      let c := setRooms t (map of_row data) c in
      match data with
      | first :: _ => setActiveRoom (Some (of_row first)) c
      | [] => c
      end
  end.

(** One iteration of the loop of [joinDefaultRooms]: the upsert of the
    membership of [user] in [room]; the client does not read its error. *)
Definition joinRoom (user room : uuid) (new_id : uuid) (now : timestamptz)
    (db : Db) : Db :=
  match Sql.upsert_room_members (Some user) new_id now
          {| RoomMembers.v_room_id := room;
             RoomMembers.v_user_id := user;
             RoomMembers.v_role := Some "member" |} db with
  | Ok db' => db'
  | Err _ => db
  end.

(** [from('chat_rooms').select('id').eq('is_private', false)] *)
Definition public_room_ids (uid : option uuid) (db : Db) : list uuid :=
  map ChatRooms.id
      (filter (fun r => Bool.eqb (ChatRooms.is_private r) false)
              (Sql.select_chat_rooms uid db)).

(** The loop of [joinDefaultRooms] over the rooms [rs]; [defaults room] are
    the id and the timestamp the database generates for the membership of
    [room]. *)
Definition join_each (user : uuid) (defaults : uuid -> uuid * timestamptz)
    (rs : list uuid) (db : Db) : Db :=
  fold_left (fun d room => joinRoom user room (fst (defaults room))
                                    (snd (defaults room)) d)
            rs db.

(** [joinDefaultRooms] *)
Definition joinDefaultRooms (user : uuid)
    (defaults : uuid -> uuid * timestamptz) (db : Db) : Db :=
  join_each user defaults (public_room_ids (Some user) db) db.

(** [createRoom] of [ChatInterface.tsx], run at time [t] by the session of
    [currentUser]; [new_id] and [now] are the defaults of the new row. *)
Definition createRoom (currentUser : option uuid) (t : Z) (new_id : uuid)
    (now : timestamptz) (name : string) (description : option string)
    (w : Db * Component) : Db * Component :=
  match currentUser with
  | None => w
  | Some u =>
      match Sql.insert_chat_rooms (Some u) new_id now
              {| ChatRooms.v_name := Some name;
                 ChatRooms.v_description := description;
                 ChatRooms.v_created_by := Some u;
                 ChatRooms.v_is_private := None |} (fst w) with
      | Err _ => w
      | Ok (db', data) =>
          (db',
           setActiveRoom (Some (of_row data))
             (setRooms t (rooms (snd w) ++ [of_row data]) (snd w)))
      end
  end.

Inductive thrown : Type :=
| not_signed_in
| database_error (e : error).

(** [createChatRoom] of [lib/supabase.ts]: the insert names neither
    [created_by] nor [is_private]. *)
Definition createChatRoom (user : option uuid) (new_id : uuid)
    (now : timestamptz) (roomName : string) (desc : option string)
    (db : Db) : Db + thrown :=
  match user with
  | None => inr not_signed_in
  | Some u =>
      match Sql.insert_chat_rooms (Some u) new_id now
              {| ChatRooms.v_name := Some roomName;
                 ChatRooms.v_description := desc;
                 ChatRooms.v_created_by := None;
                 ChatRooms.v_is_private := None |} db with
      | Err e => inr (database_error e)
      | Ok (db', _) => inl db'
      end
  end.

End Client.

(** ** Rows, predicates and sample databases of the statements *)

Local Open Scope Z_scope.

(** The row [createRoom] asks the database to store. *)
Definition created_room (u new_id : uuid) (now : timestamptz) (name : string)
    (description : option string) : ChatRooms.row :=
  {| ChatRooms.id := new_id;
     ChatRooms.name := name;
     ChatRooms.description := description;
     ChatRooms.created_by := Some u;
     ChatRooms.is_private := false;
     ChatRooms.created_at := now;
     ChatRooms.updated_at := now |}.

(** The values of a post by [u] into [room], and the row it stores. *)
Definition post_values (u room : uuid) (content : text)
    (reply_to : option uuid) : Messages.values :=
  {| Messages.v_content := Some content;
     Messages.v_user_id := u;
     Messages.v_room_id := room;
     Messages.v_reply_to := reply_to |}.

Definition posted_message (u room new_id : uuid) (now : timestamptz)
    (content : text) (reply_to : option uuid) : Messages.row :=
  {| Messages.id := new_id;
     Messages.content := content;
     Messages.user_id := u;
     Messages.room_id := room;
     Messages.reply_to := reply_to;
     Messages.edited_at := None;
     Messages.created_at := now |}.

(** The SET list that changes the visibility of a room and nothing else. *)
Definition set_visibility (b : bool) : ChatRooms.assignment :=
  {| ChatRooms.set_name := None;
     ChatRooms.set_description := None;
     ChatRooms.set_created_by := None;
     ChatRooms.set_is_private := Some b |}.

(** The values [joinDefaultRooms] upserts for [user] and [room]. *)
Definition join_values (user room : uuid) : RoomMembers.values :=
  {| RoomMembers.v_room_id := room;
     RoomMembers.v_user_id := user;
     RoomMembers.v_role := Some "member" |}.

(** The room [r] exists and is public: the EXISTS of "Users can join public
    rooms". *)
Definition is_public_room (db : Db) (r : uuid) : bool :=
  existsb (fun x => String.eqb (ChatRooms.id x) r
                    && Bool.eqb (ChatRooms.is_private x) false)
          (chat_rooms db).

(** [UNIQUE(room_id, user_id)] and [UNIQUE(message_id, user_id, emoji)] as
    properties of a database. *)
Definition unique_memberships (db : Db) : Prop :=
  forall r u, (List.length (memberships db r u) <= 1)%nat.

Definition unique_reactions (db : Db) : Prop :=
  forall m u e, (List.length (reactions db m u e) <= 1)%nat.

(** What the operations of the message log answer when they do not go
    through: a refusal of the access control layer, or the error of the
    database.  The spec has the predicates of the access control layer
    evaluated in application code, as pure functions of the tables, before
    the write; the write itself is the statement on the schema of the
    migration, run by the session of the user. *)
Inductive refusal : Type :=
| NotFound
| Forbidden
| Database (e : error).

Definition written (r : result Db) : Db + refusal :=
  match r with
  | Ok db' => inl db'
  | Err e => inr (Database e)
  end.

(** [SELECT ... FROM messages WHERE id = m], as the access control layer
    reads it. *)
Definition find_message (db : Db) (m : uuid) : option Messages.row :=
  find (fun x => String.eqb (Messages.id x) m) (messages db).

(** Modelled from the spec: [canRead], which no file under src/ defines:
    true if the room is public or the identity has a membership. *)
Definition canRead (db : Db) (u room : uuid) : bool :=
  is_public_room db room || existsb (is_membership room u) (room_members db).

(** Modelled from the spec: [react], which no file under src/ defines.  The
    spec has it require [canRead] on the room of the message and toggle the
    unique (message_id, user_id, emoji) row; on the schema of the migration
    the write is the INSERT of the row, run by the session of the reacting
    user under the policy "Users can manage their own reactions". *)
Definition react (u : uuid) (new_id : uuid) (now : timestamptz) (m : uuid)
    (e : text) (db : Db) : Db + refusal :=
  match find_message db m with
  | None => inr NotFound
  | Some x =>
      if canRead db u (Messages.room_id x)
      then written (Sql.insert_message_reactions (Some u) new_id now m u e db)
      else inr Forbidden
  end.

(** Modelled from the spec: [unreact], the other half of the toggle, which no
    file under src/ defines: under the same precondition, the DELETE of the
    row of the triple, run by the session of the reacting user. *)
Definition unreact (u m : uuid) (e : text) (db : Db) : Db + refusal :=
  match find_message db m with
  | None => inr NotFound
  | Some x =>
      if canRead db u (Messages.room_id x)
      then written (Sql.try_delete_message_reactions (Some u) m u e db)
      else inr Forbidden
  end.

(** [canEditMessage]: the USING expression of "Users can update their own
    messages", for the session of [u]. *)
Definition canEditMessage (u : uuid) (m : Messages.row) : bool :=
  Policy.messages_update (Some u) m.

(** The SET list of an edit: the content and [edited_at]. *)
Definition edit_assignment (newContent : text) (now : timestamptz)
  : Messages.assignment :=
  {| Messages.set_content := Some newContent;
     Messages.set_edited_at := Some (Some now);
     Messages.set_created_at := None |}.

(** Modelled from the spec: [editMessage], which no file under src/ defines.
    The spec has it require [canEditMessage] and set [edited_at]; on the
    schema of the migration the write is the UPDATE of [content] and
    [edited_at] of the message, run by the session of the editor under the
    policy "Users can update their own messages". *)
Definition editMessage (editor mid : uuid) (newContent : text)
    (now : timestamptz) (db : Db) : Db + refusal :=
  match find_message db mid with
  | None => inr NotFound
  | Some x =>
      if canEditMessage editor x
      then match Sql.update_messages (Some editor) mid
                   (edit_assignment newContent now) db with
           | Ok (db', _) => inl db'
           | Err e => inr (Database e)
           end
      else inr Forbidden
  end.

(** The value of a digit of the base64 alphabet. *)
Fixpoint index_of (c : ascii) (l : list ascii) (i : N) : option N :=
  match l with
  | [] => None
  | x :: r => if Ascii.eqb x c then Some i else index_of c r (i + 1)%N
  end.

Definition base64_value (c : ascii) : option N :=
  index_of c base64_alphabet 0%N.

(** The bytes a sequence of complete base64 groups stands for (RFC 2045):
    four digits give three bytes, and the last group may end in one or two
    padding characters. *)
Fixpoint base64_groups (l : list ascii) : option (list ascii) :=
  match l with
  | [] => Some []
  | c1 :: c2 :: c3 :: c4 :: rest =>
      match base64_value c1, base64_value c2 with
      | Some v1, Some v2 =>
          let b1 := ascii_of_N (N.lor (N.shiftl v1 2) (N.shiftr v2 4)) in
          if Ascii.eqb c3 "="%char
          then match Ascii.eqb c4 "="%char, rest with
               | true, [] => Some [b1]
               | _, _ => None
               end
          else
            match base64_value c3 with
            | None => None
            | Some v3 =>
                let b2 := ascii_of_N
                            (N.lor (N.shiftl (N.land v2 15) 4)
                                   (N.shiftr v3 2)) in
                if Ascii.eqb c4 "="%char
                then match rest with
                     | [] => Some [b1; b2]
                     | _ => None
                     end
                else
                  match base64_value c4 with
                  | None => None
                  | Some v4 =>
                      let b3 := ascii_of_N
                                  (N.lor (N.shiftl (N.land v3 3) 6) v4) in
                      option_map (fun r => b1 :: b2 :: b3 :: r)
                                 (base64_groups rest)
                  end
            end
      | _, _ => None
      end
  | _ => None
  end.

(** The bytes a base64 text stands for, its line breaks skipped. *)
Definition base64_decode (s : string) : option string :=
  option_map string_of_list_ascii
    (base64_groups
       (filter (fun c => negb (Ascii.eqb c newline))
               (list_ascii_of_string s))).

(** A text the input function of [bytea] takes as it is: no backslash. *)
Definition plain (s : string) : Prop :=
  ~ In Bytea.backslash (list_ascii_of_string s).

(** The substring of [s] before its first [d]; all of [s] when it has none. *)
Fixpoint substring_before (d : ascii) (s : string) : string :=
  match s with
  | EmptyString => EmptyString
  | String c r =>
      if Ascii.eqb c d then EmptyString else String c (substring_before d r)
  end.

(** The claim of the room directory: the creator holds an admin membership. *)
Definition creator_is_admin (db : Db) (room creator : uuid) : Prop :=
  exists m, In m (room_members db)
            /\ RoomMembers.room_id m = room
            /\ RoomMembers.user_id m = creator
            /\ RoomMembers.role m = "admin".

(** The order of [ORDER BY created_at ASC]. *)
Definition created_at_le (a b : ChatRooms.row) : Prop :=
  ChatRooms.created_at a <= ChatRooms.created_at b.

(** The database before anyone signed up and before the seed rooms. *)
Definition no_users : Db :=
  {| auth_users := []; profiles := []; chat_rooms := []; messages := [];
     room_members := []; message_reactions := [] |}.

Definition alice : AuthUsers.row :=
  {| AuthUsers.id := "u-alice";
     AuthUsers.email := Some "alice@example.com";
     AuthUsers.raw_user_meta_data := [] |}.

Definition bob : AuthUsers.row :=
  {| AuthUsers.id := "u-bob";
     AuthUsers.email := Some "bob@example.com";
     AuthUsers.raw_user_meta_data := [("username", "bobby")] |}.

(** The profile the signup trigger stores for a user with an email. *)
Definition profile_of (now : timestamptz) (id : uuid) (username email : text)
  : Profiles.row :=
  {| Profiles.id := id;
     Profiles.username := Some username;
     Profiles.avatar_url :=
       Some (Trigger.dicebear ++ encode_base64 email)%string;
     Profiles.email := Some email;
     Profiles.last_seen := now;
     Profiles.is_online := false;
     Profiles.created_at := now;
     Profiles.updated_at := now |}.

(** Alice and bob have signed up, at times 1 and 2; no rooms yet. *)
Definition two_users : Db :=
  {| auth_users := [alice; bob];
     profiles := [ profile_of 1 "u-alice" "alice" "alice@example.com";
                   profile_of 2 "u-bob" "bobby" "bob@example.com" ];
     chat_rooms := []; messages := []; room_members := [];
     message_reactions := [] |}.

(** Two users and the public room "r1" of alice; nobody is a member. *)
Definition one_public_room : Db :=
  with_chat_rooms [created_room "u-alice" "r1" 10 "lobby" None] two_users.

(** Two users and the private room "r2" of alice; nobody is a member. *)
Definition one_private_room : Db :=
  with_chat_rooms
    [ {| ChatRooms.id := "r2"; ChatRooms.name := "board";
         ChatRooms.description := None;
         ChatRooms.created_by := Some "u-alice";
         ChatRooms.is_private := true;
         ChatRooms.created_at := 10; ChatRooms.updated_at := 10 |} ]
    two_users.

(** The public room with one message of alice in it. *)
Definition one_message : Db :=
  with_messages [posted_message "u-alice" "r1" "m1" 20 "hello" None]
    one_public_room.

(** The component at the moment the 3-second timer set at mount time [t0]
    is due, when the only thing that happened since the mount is [before]:
    nothing, or the query of [fetchRooms] resolving at some time to some
    response. *)
Definition before_timer (t0 : Z) (before : option (Z * Client.response))
  : Client.Component :=
  match before with
  | None => Client.mount t0
  | Some (t, r) => Client.fetchRooms t r (Client.mount t0)
  end.

(** A new user with the given email and no metadata. *)
Definition carol : AuthUsers.row :=
  {| AuthUsers.id := "u-carol";
     AuthUsers.email := Some "carol@example.com";
     AuthUsers.raw_user_meta_data := [] |}.

(** ** The rest of the migration and of the client *)

(** The policies of [profiles]. *)
Module ProfilesPolicy.

(** "Public profiles are viewable by everyone": FOR SELECT USING (true) *)
Definition select (uid : option uuid) (p : Profiles.row) : bool := true.

(** "Users can insert their own profile":
    FOR INSERT WITH CHECK (auth.uid() = id) *)
Definition insert (uid : option uuid) (p : Profiles.row) : bool :=
  eq_nullable uid (Profiles.id p).

(** "Users can update own profile": FOR UPDATE USING (auth.uid() = id); with
    no WITH CHECK of its own, the expression applies to the new row too. *)
Definition update (uid : option uuid) (p : Profiles.row) : bool :=
  eq_nullable uid (Profiles.id p).

End ProfilesPolicy.

Module Migration.

(** The rows of "Insert default chat rooms": name and description. *)
Definition default_rooms : list (text * text) :=
  [ ("general", "General discussion for everyone");
    ("random", "Random conversations and off-topic chat");
    ("tech-talk", "Discuss technology, programming, and development");
    ("announcements", "Important announcements and updates") ].

Definition default_room (new_id : uuid) (now : timestamptz) (x : text * text)
  : ChatRooms.row :=
  {| ChatRooms.id := new_id;
     ChatRooms.name := fst x;
     ChatRooms.description := Some (snd x);
     ChatRooms.created_by := None;
     ChatRooms.is_private := false;
     ChatRooms.created_at := now;
     ChatRooms.updated_at := now |}.

(** One row of the seeding INSERT.  The statement names no conflict target,
    and the only unique index of [chat_rooms] is its primary key: the row is
    skipped when its generated id exists, and stored otherwise. *)
Definition insert_default_room (now : timestamptz) (db : Db)
    (x : uuid * (text * text)) : Db :=
  if room_exists db (fst x) then db
  else with_chat_rooms (chat_rooms db ++ [default_room (fst x) now (snd x)])
                       db.

(** [INSERT INTO chat_rooms (name, description, is_private) VALUES ...
     ON CONFLICT DO NOTHING], run by the migration, to which the policies do
    not apply; [gen k] is the id generated for the [k]-th row. *)
Definition insert_default_rooms (gen : nat -> uuid) (now : timestamptz)
    (db : Db) : Db :=
  fold_left (insert_default_room now)
            (combine (map gen (seq 0 4)) default_rooms) db.

(** [public.update_user_presence()], a SECURITY DEFINER function:
    [UPDATE public.profiles SET last_seen = now(), is_online = true,
     updated_at = now() WHERE id = auth.uid()]. *)
Definition update_user_presence (uid : option uuid) (now : timestamptz)
    (db : Db) : Db :=
  with_profiles
    (map (fun p => if eq_nullable uid (Profiles.id p)
                   then {| Profiles.id := Profiles.id p;
                           Profiles.username := Profiles.username p;
                           Profiles.avatar_url := Profiles.avatar_url p;
                           Profiles.email := Profiles.email p;
                           Profiles.last_seen := now;
                           Profiles.is_online := true;
                           Profiles.created_at := Profiles.created_at p;
                           Profiles.updated_at := now |}
                   else p)
         (profiles db))
    db.

End Migration.

(** What [updateUserPresence] takes from JavaScript. *)
Module Js.

(** [a || b] on strings that may be undefined: the empty string is falsy. *)
Definition or_else (a b : option string) : option string :=
  match a with
  | None => b
  | Some EmptyString => b
  | Some _ => a
  end.

(** [a || d] where [d] is a string. *)
Definition or_default (a : option string) (d : string) : string :=
  match or_else a (Some d) with
  | Some x => x
  | None => d
  end.

(** [s.split(sep)[0]] for a one-character separator. *)
Definition split_first (s : string) (sep : ascii) : string :=
  hd EmptyString (split_fields s sep).

(** The characters [encodeURIComponent] leaves as they are:
    A-Z a-z 0-9 - _ . ! ~ * ' ( ) *)
Definition unreserved (c : ascii) : bool :=
  let n := N_of_ascii c in
  ((65 <=? n) && (n <=? 90) || (97 <=? n) && (n <=? 122)
   || (48 <=? n) && (n <=? 57)
   || (n =? 45) || (n =? 95) || (n =? 46) || (n =? 33) || (n =? 126)
   || (n =? 42) || (n =? 39) || (n =? 40) || (n =? 41))%N.

Definition hex_digit (n : N) : ascii :=
  nth (N.to_nat n) (list_ascii_of_string "0123456789ABCDEF") "0"%char.

(** [encodeURIComponent] on the UTF-8 bytes of a string: every other byte
    becomes a percent sign and its two upper-case hexadecimal digits. *)
Fixpoint encodeURIComponent (s : string) : string :=
  match s with
  | EmptyString => EmptyString
  | String c r =>
      if unreserved c then String c (encodeURIComponent r)
      else String "%"%char
             (String (hex_digit (N.shiftr (N_of_ascii c) 4))
                (String (hex_digit (N.land (N_of_ascii c) 15))
                   (encodeURIComponent r)))
  end.

End Js.

Module Presence.

(** The object [updateUserPresence] upserts.  A property whose value is
    [undefined] is not sent: its column keeps its value on the UPDATE path and
    is NULL on the INSERT path. *)
Record values : Type := {
  v_id : uuid;
  v_username : option text;
  v_email : option text;
  v_avatar_url : option text;
  v_is_online : bool;
  v_last_seen : timestamptz
}.

Definition keep {A : Type} (sent : option A) (old : option A) : option A :=
  match sent with
  | Some _ => sent
  | None => old
  end.

Definition same_username (a b : option text) : bool :=
  match a, b with
  | Some x, Some y => String.eqb x y
  | _, _ => false
  end.

(** [INSERT INTO profiles (...) VALUES (...) ON CONFLICT (id) DO UPDATE
     SET <the columns sent> = EXCLUDED.<the columns sent>], the statement of
    [from('profiles').upsert({...})], whose conflict target is the primary
    key. *)
Definition upsert_profiles (uid : option uuid) (now : timestamptz)
    (v : values) (db : Db) : result Db :=
  let p := {| Profiles.id := v_id v;
              Profiles.username := v_username v;
              Profiles.avatar_url := v_avatar_url v;
              Profiles.email := v_email v;
              Profiles.last_seen := v_last_seen v;
              Profiles.is_online := v_is_online v;
              Profiles.created_at := now;
              Profiles.updated_at := now |} in
  let conflicts := fun q => String.eqb (Profiles.id q) (v_id v) in
  let assign := fun q =>
    {| Profiles.id := v_id v;
       Profiles.username := keep (v_username v) (Profiles.username q);
       Profiles.avatar_url := keep (v_avatar_url v) (Profiles.avatar_url q);
       Profiles.email := keep (v_email v) (Profiles.email q);
       Profiles.last_seen := v_last_seen v;
       Profiles.is_online := v_is_online v;
       Profiles.created_at := Profiles.created_at q;
       Profiles.updated_at := Profiles.updated_at q |} in
  check ProfilesPolicy.insert uid p else rls_violation ;;
  if existsb conflicts (profiles db)
  then
    check forallb (ProfilesPolicy.update uid)
                  (filter conflicts (profiles db))
          && forallb (ProfilesPolicy.update uid)
                     (map assign (filter conflicts (profiles db)))
      else rls_violation ;;
    check negb (existsb (fun q => negb (conflicts q)
                                  && same_username (v_username v)
                                                   (Profiles.username q))
                        (profiles db))
      else unique_violation ;;
    Ok (with_profiles
          (map (fun q => if conflicts q then assign q else q) (profiles db))
          db)
  else
    check negb (username_taken db (v_username v)) else unique_violation ;;
    check user_exists db (v_id v) else foreign_key_violation ;;
    Ok (with_profiles (profiles db ++ [p]) db).

(** The object of [updateUserPresence] for the signed-in [user] at the client
    time [t]. *)
Definition presence_values (user : AuthUsers.row) (t : timestamptz) : values :=
  {| v_id := AuthUsers.id user;
     v_username :=
       Js.or_else
         (Trigger.json_text (AuthUsers.raw_user_meta_data user) "username")
         (Trigger.strict (fun e => Js.split_first e "@")
                         (AuthUsers.email user));
     v_email := AuthUsers.email user;
     v_avatar_url :=
       Js.or_else
         (Trigger.json_text (AuthUsers.raw_user_meta_data user) "avatar_url")
         (Some (Trigger.dicebear
                ++ Js.encodeURIComponent
                     (Js.or_default (AuthUsers.email user) "User"))%string);
     v_is_online := true;
     v_last_seen := t |}.

(** [updateUserPresence] of [ChatInterface.tsx], in the session of [user];
    an error is logged and nothing else is done about it. *)
Definition updateUserPresence (user : AuthUsers.row) (t now : timestamptz)
    (db : Db) : Db :=
  match upsert_profiles (Some (AuthUsers.id user)) now
          (presence_values user t) db with
  | Ok db' => db'
  | Err _ => db
  end.

End Presence.

(** [App.tsx]: the three state cells of [App] and what it renders. *)
Module App.

Record State : Type := {
  user : option AuthUsers.row;
  loading : bool;
  connectionError : bool
}.

Definition initial : State :=
  {| user := None; loading := true; connectionError := false |}.

Inductive event : Type :=
| session_failed                                  (* [error] set, or it threw *)
| session_resolved (session : option AuthUsers.row)   (* [session?.user] *)
| auth_state_changed (session : option AuthUsers.row).

(** [initializeApp] resolving, and the listener of [onAuthStateChange]. *)
Definition step (s : State) (e : event) : State :=
  match e with
  | session_failed =>
      {| user := user s; loading := false; connectionError := true |}
  | session_resolved session =>
      {| user := session; loading := false; connectionError := false |}
  | auth_state_changed session =>
      {| user := session; loading := loading s;
         connectionError := connectionError s |}
  end.

Definition run (events : list event) : State := fold_left step events initial.

Inductive screen : Type :=
| Spinner
| SetupRequired
| Chat (u : AuthUsers.row)
| AuthForm.

Definition render (s : State) : screen :=
  if loading s then Spinner
  else if connectionError s then SetupRequired
  else match user s with
       | Some u => Chat u
       | None => AuthForm
       end.

Definition is_auth_change (e : event) : bool :=
  match e with
  | auth_state_changed _ => true
  | _ => false
  end.

End App.

(** Every user has one profile and every profile a user; ids and non-NULL
    usernames are not repeated: what the primary key, the foreign key and the
    UNIQUE constraint of [profiles] and the signup trigger maintain. *)
Definition profiles_consistent (db : Db) : Prop :=
  NoDup (map Profiles.id (profiles db))
  /\ (forall p q, In p (profiles db) -> In q (profiles db) ->
                  Presence.same_username (Profiles.username p)
                                         (Profiles.username q) = true ->
                  p = q)
  /\ (forall k, In k (map Profiles.id (profiles db))
                <-> In k (map AuthUsers.id (auth_users db))).

(** The rows of other users. *)
Definition profiles_except (u : uuid) (db : Db) : list Profiles.row :=
  filter (fun q => negb (String.eqb (Profiles.id q) u)) (profiles db).

(** A join attempt: who, into which room, with which generated values. *)
Record join : Type := {
  j_user : uuid;
  j_room : uuid;
  j_id : uuid;
  j_now : timestamptz
}.

Definition run_joins (js : list join) (db : Db) : Db :=
  fold_left (fun d j => Client.joinRoom (j_user j) (j_room j) (j_id j)
                                        (j_now j) d) js db.

(** The database after the migration seeded an empty one at time 0. *)
Definition seeded : Db :=
  Migration.insert_default_rooms
    (fun k => nth k ["seed-0"; "seed-1"; "seed-2"; "seed-3"] EmptyString)
    0 no_users.

(** Alice and bob signed up on a database with the four default rooms. *)
Definition seeded_with_users : Db :=
  with_chat_rooms (chat_rooms seeded) two_users.

(** ** Tactics of the proofs on bytes *)

(** The 256 values of a byte, each by computation. *)
Ltac byte x := destruct x as [[] [] [] [] [] [] [] []]; reflexivity.

(** [zero_leaves x] replaces by 0 the operands of a [lor] that depend on the byte [x] alone
    and vanish for all its values. *)
Ltac zero_leaves x :=
  repeat match goal with
  | |- context [N.lor ?l ?r] =>
      lazymatch r with context [N_of_ascii x] => idtac end;
      lazymatch r with context [N.lor _ _] => fail | _ => idtac end;
      replace r with 0%N by (clear; symmetry; byte x);
      rewrite N.lor_0_r
  | |- context [N.lor ?l ?r] =>
      lazymatch l with context [N_of_ascii x] => idtac end;
      lazymatch l with context [N.lor _ _] => fail | _ => idtac end;
      replace l with 0%N by (clear; symmetry; byte x);
      rewrite N.lor_0_l
  end.

Ltac distribute :=
  repeat first [ rewrite N.shiftr_lor | rewrite N.shiftl_lor
               | rewrite N.land_lor_distr_l ].

(** * Properties *)

(** ** Checks, keys and filters *)

Lemma check_ok : forall (A : Type) (b : bool) (e : error) (k x : result A),
  (check b else e ;; k) = x -> is_ok x = true -> b = true /\ k = x.
Proof.
  intros A b e k x H Hok. destruct b; simpl in H.
  - split; [reflexivity | exact H].
  - subst x. discriminate Hok.
Qed.

Lemma check_Ok : forall (A : Type) (b : bool) (e : error) (k : result A) a,
  (check b else e ;; k) = Ok a -> b = true /\ k = Ok a.
Proof. intros A b e k a H. now apply check_ok in H. Qed.

Lemma check_pass : forall (A : Type) (b : bool) (e : error) (k : result A),
  b = true -> (check b else e ;; k) = k.
Proof. intros A b e k ->. reflexivity. Qed.

Lemma has_key_in : forall k keys, has_key k keys = true <-> In k keys.
Proof.
  intros k keys. unfold has_key. rewrite existsb_exists. split.
  - intros [x [Hin Heq]]. apply String.eqb_eq in Heq. now subst.
  - intros Hin. exists k. split; [exact Hin | apply String.eqb_refl].
Qed.

Lemma filter_none : forall (A : Type) (f : A -> bool) (l : list A),
  existsb f l = false -> filter f l = [].
Proof.
  intros A f l. induction l as [|a l IH]; simpl; [reflexivity|].
  destruct (f a); simpl; [discriminate | exact IH].
Qed.

Lemma filter_negb_none : forall (A : Type) (f : A -> bool) (l : list A),
  existsb f l = false -> filter (fun x => negb (f x)) l = l.
Proof.
  intros A f l. induction l as [|a l IH]; simpl; [reflexivity|].
  destruct (f a); simpl; [discriminate|]. intros H. now rewrite IH.
Qed.

Lemma is_membership_spec : forall r u m,
  is_membership r u m = true <->
  RoomMembers.room_id m = r /\ RoomMembers.user_id m = u.
Proof.
  intros r u m. unfold is_membership.
  rewrite andb_true_iff, !String.eqb_eq. tauto.
Qed.

Lemma eq_nullable_spec : forall uid u,
  eq_nullable uid u = true <-> uid = Some u.
Proof.
  intros [a|] u; simpl.
  - rewrite String.eqb_eq. split; congruence.
  - split; discriminate.
Qed.

Lemma eq_nullable2_spec : forall a b,
  eq_nullable2 a b = true <-> exists u, a = Some u /\ b = Some u.
Proof.
  intros [a|] [b|]; simpl.
  - rewrite String.eqb_eq. split.
    + intros ->. now exists b.
    + intros [u [H1 H2]]. congruence.
  - split; [discriminate | intros [u [_ H]]; discriminate].
  - split; [discriminate | intros [u [H _]]; discriminate].
  - split; [discriminate | intros [u [H _]]; discriminate].
Qed.

(** ** Room creation *)

Section RoomCreation.

Variables (u : uuid) (t : Z) (new_id : uuid) (now : timestamptz).
Variables (name : string) (description : option string).
Variables (db : Db) (c : Client.Component).

Hypothesis signed_up : user_exists db u = true.
Hypothesis fresh : room_exists db new_id = false.

Lemma createRoom_succeeds :
  Client.createRoom (Some u) t new_id now name description (db, c)
  = (with_chat_rooms
       (chat_rooms db ++ [created_room u new_id now name description]) db,
     Client.setActiveRoom
       (Some (Client.of_row (created_room u new_id now name description)))
       (Client.setRooms t
          (Client.rooms c
           ++ [Client.of_row (created_room u new_id now name description)])
          c)).
Proof.
  unfold Client.createRoom, Sql.insert_chat_rooms. simpl.
  rewrite fresh, signed_up. reflexivity.
Qed.

End RoomCreation.

(** C1, as stated, fails: after alice's [createRoom] the room "r1" exists and
    [room_members] holds no admin membership of alice in it (it is empty). *)
Lemma createRoom_leaves_creator_without_membership :
  let w := Client.createRoom (Some "u-alice") 0 "r1" 10 "lobby" None
             (two_users, Client.mount 0) in
  room_exists (fst w) "r1" = true
  /\ room_members (fst w) = []
  /\ ~ creator_is_admin (fst w) "r1" "u-alice".
Proof.
  cbv zeta. repeat split.
  intros [m [Hin _]]. exact Hin.
Qed.

(** Whatever its outcome, [createRoom] leaves [room_members] as it was. *)
Lemma createRoom_room_members :
  forall cur t new_id now name description w,
    room_members
      (fst (Client.createRoom cur t new_id now name description w))
    = room_members (fst w).
Proof.
  intros cur t new_id now name description [db c].
  unfold Client.createRoom. destruct cur as [x|]; [|reflexivity].
  destruct (Sql.insert_chat_rooms _ _ _ _ _) as [[db' r]|e] eqn:E;
    [|reflexivity].
  unfold Sql.insert_chat_rooms in E. simpl in E.
  destruct (negb (room_exists db new_id)); simpl in E; [|discriminate].
  destruct (user_exists db x); simpl in E; [|discriminate].
  injection E as <- _. reflexivity.
Qed.

(** [createChatRoom] does the same, and names no creator. *)
Lemma createChatRoom_inserts_room_only :
  forall user new_id now roomName desc db db',
    Client.createChatRoom user new_id now roomName desc db = inl db' ->
    room_members db' = room_members db
    /\ exists r, chat_rooms db' = chat_rooms db ++ [r]
                 /\ ChatRooms.created_by r = None.
Proof.
  intros user new_id now roomName desc db db' H.
  unfold Client.createChatRoom in H. destruct user as [x|]; [|discriminate].
  destruct (Sql.insert_chat_rooms _ _ _ _ _) as [[d r]|e] eqn:E;
    [|discriminate].
  injection H as <-. unfold Sql.insert_chat_rooms in E.
  apply check_Ok in E. destruct E as [_ E]. simpl in E.
  apply check_Ok in E. destruct E as [_ E].
  injection E as <- <-. split; [reflexivity|].
  eexists. split; reflexivity.
Qed.

(** C1, amended: [createRoom] writes the [chat_rooms] row only.  When the
    creator is a signed-up user and the generated id is new, the call stores
    the room with [created_by] the creator and [is_private] false and makes it
    the active room; [room_members] is left as it was, and the new room has no
    membership row at all, for the creator or anyone else (the memberships of
    the database referring to existing rooms). *)
Theorem createRoom_inserts_room_only :
  forall (u : uuid) (t : Z) (new_id : uuid) (now : timestamptz)
         (name : string) (description : option string)
         (db : Db) (c : Client.Component),
    (forall m, In m (room_members db) ->
               room_exists db (RoomMembers.room_id m) = true) ->
    user_exists db u = true ->
    room_exists db new_id = false ->
    let w := Client.createRoom (Some u) t new_id now name description
               (db, c) in
    chat_rooms (fst w)
    = chat_rooms db ++ [created_room u new_id now name description]
    /\ Client.activeRoom (snd w)
       = Some (Client.of_row (created_room u new_id now name description))
    /\ room_members (fst w) = room_members db
    /\ forall v, memberships (fst w) new_id v = [].
Proof.
  intros u t new_id now name description db c Hfk Hu Hfresh. cbv zeta.
  rewrite (createRoom_succeeds u t new_id now name description db c Hu Hfresh).
  simpl. repeat split. intros v. unfold memberships. simpl.
  apply filter_none. apply not_true_is_false. intros Hex.
  apply existsb_exists in Hex. destruct Hex as [m [Hin Hm]].
  apply is_membership_spec in Hm. destruct Hm as [Hr _].
  specialize (Hfk m Hin). rewrite Hr in Hfk. congruence.
Qed.

Lemma createRoom_inserts_room_only_witness :
  let w := Client.createRoom (Some "u-alice") 0 "r1" 10 "lobby" None
             (two_users, Client.mount 0) in
  chat_rooms (fst w)
  = chat_rooms two_users ++ [created_room "u-alice" "r1" 10 "lobby" None]
  /\ Client.activeRoom (snd w)
     = Some (Client.of_row (created_room "u-alice" "r1" 10 "lobby" None))
  /\ room_members (fst w) = room_members two_users
  /\ forall v, memberships (fst w) "r1" v = [].
Proof.
  apply (createRoom_inserts_room_only "u-alice" 0 "r1" 10 "lobby" None
           two_users (Client.mount 0)).
  - simpl. intros m [].
  - reflexivity.
  - reflexivity.
Defined.

(** C4, as stated, fails: alice's [createRoom] with the empty name is not
    refused, and a room row with that name is stored. *)
Lemma createRoom_stores_empty_name :
  let w := Client.createRoom (Some "u-alice") 0 "r1" 10 EmptyString None
             (two_users, Client.mount 0) in
  chat_rooms (fst w) = [created_room "u-alice" "r1" 10 EmptyString None]
  /\ map ChatRooms.name (chat_rooms (fst w)) = [EmptyString].
Proof. cbv zeta. split; reflexivity. Qed.

(** C4, amended: the only check on the name is the NOT NULL constraint of
    [chat_rooms.name].  An INSERT by a signed-in caller that leaves the name
    out is refused with a not-null violation and stores nothing, while
    [createRoom] with the empty string as name, by a signed-up user and with
    a new id, stores a room row whose name is the empty string. *)
Theorem createRoom_rejects_only_a_missing_name :
  forall (u : uuid) (t : Z) (new_id : uuid) (now : timestamptz)
         (description : option string) (db : Db) (c : Client.Component),
    user_exists db u = true ->
    room_exists db new_id = false ->
    Sql.insert_chat_rooms (Some u) new_id now
      {| ChatRooms.v_name := None;
         ChatRooms.v_description := description;
         ChatRooms.v_created_by := Some u;
         ChatRooms.v_is_private := None |} db
    = Err not_null_violation
    /\ chat_rooms
         (fst (Client.createRoom (Some u) t new_id now EmptyString description
                 (db, c)))
       = chat_rooms db ++ [created_room u new_id now EmptyString description]
    /\ ChatRooms.name (created_room u new_id now EmptyString description)
       = EmptyString.
Proof.
  intros u t new_id now description db c Hu Hfresh. split; [reflexivity|].
  rewrite (createRoom_succeeds u t new_id now EmptyString description db c
             Hu Hfresh).
  split; reflexivity.
Qed.

Lemma createRoom_rejects_only_a_missing_name_witness :
  Sql.insert_chat_rooms (Some "u-alice") "r1" 10
    {| ChatRooms.v_name := None;
       ChatRooms.v_description := None;
       ChatRooms.v_created_by := Some "u-alice";
       ChatRooms.v_is_private := None |} two_users
  = Err not_null_violation
  /\ chat_rooms
       (fst (Client.createRoom (Some "u-alice") 0 "r1" 10 EmptyString None
               (two_users, Client.mount 0)))
     = chat_rooms two_users ++ [created_room "u-alice" "r1" 10 EmptyString None]
  /\ ChatRooms.name (created_room "u-alice" "r1" 10 EmptyString None)
     = EmptyString.
Proof.
  apply (createRoom_rejects_only_a_missing_name "u-alice" 0 "r1" 10 None
           two_users (Client.mount 0)); reflexivity.
Defined.

(** ** Posting a message *)

Lemma message_exists_app : forall db m k,
  message_exists (with_messages (messages db ++ [m]) db) k
  = message_exists db k || String.eqb k (Messages.id m).
Proof.
  intros db m k. unfold message_exists, has_key. simpl.
  rewrite map_app, existsb_app. simpl. now rewrite orb_false_r.
Qed.

(** The plain INSERT of a post brings in no SELECT policy. *)
Lemma insert_messages_rewritten :
  Rewriter.rewrites Rewriter.plain_insert Rewriter.messages_t = true.
Proof. reflexivity. Qed.

(** C2, as stated, fails: bob holds no membership in the public room "r1";
    the policy lets him write, and the INSERT of his message stores it. *)
Lemma non_member_posts_into_public_room :
  memberships one_public_room "r1" "u-bob" = []
  /\ is_public_room one_public_room "r1" = true
  /\ Policy.messages_insert (Some "u-bob") (post_values "u-bob" "r1" "hi" None)
     = true
  /\ exists db',
       Sql.insert_messages (Some "u-bob") "m1" 20
         (post_values "u-bob" "r1" "hi" None) one_public_room
       = Ok db'
       /\ In (posted_message "u-bob" "r1" "m1" 20 "hi" None) (messages db').
Proof.
  split; [reflexivity|]. split; [reflexivity|]. split; [reflexivity|].
  eexists. split; [reflexivity|]. simpl. left. reflexivity.
Qed.

(** C2, amended: the right to write is decided by authorship alone.  The
    INSERT policy of [messages] holds exactly when the caller is signed in and
    posts under its own [user_id]; so the INSERT of a signed-up user's post
    into an existing room is stored whether or not the user holds a membership
    and whether the room is public or private, and the INSERT of a post under
    another user's id is refused by the policy.  (The message replies to
    nothing, to a stored message or to itself.) *)
Theorem messages_insert_checks_author_only :
  forall (db : Db) (u room new_id : uuid) (now : timestamptz)
         (content : text) (reply_to : option uuid),
    user_exists db u = true ->
    room_exists db room = true ->
    message_exists db new_id = false ->
    (forall k, reply_to = Some k ->
               k = new_id \/ message_exists db k = true) ->
    (forall uid v,
        Policy.messages_insert uid v = true
        <-> uid = Some (Messages.v_user_id v))
    /\ Sql.insert_messages (Some u) new_id now
         (post_values u room content reply_to) db
       = Ok (with_messages
               (messages db
                ++ [posted_message u room new_id now content reply_to]) db)
    /\ (forall other, other <> u ->
          Sql.insert_messages (Some other) new_id now
            (post_values u room content reply_to) db
          = Err rls_violation).
Proof.
  intros db u room new_id now content reply_to Hu Hr Hfresh Hreply.
  split; [|split].
  - intros uid v. unfold Policy.messages_insert, Policy.authenticated.
    rewrite andb_true_iff, eq_nullable_spec. split.
    + intros [_ H]. exact H.
    + intros ->. split; reflexivity.
  - unfold Sql.insert_messages, Policy.messages_insert.
    rewrite insert_messages_rewritten. cbn [bind require].
    cbn [Policy.authenticated eq_nullable post_values Messages.v_user_id
         Messages.v_content Messages.v_room_id Messages.v_reply_to andb].
    rewrite String.eqb_refl. cbn [bind require]. rewrite Hfresh.
    cbn [negb bind require].
    assert (Hfk : fk_nullable
                    (message_exists
                       (with_messages
                          (messages db
                           ++ [Sql.message_row new_id now content
                                 (post_values u room content reply_to)]) db))
                    reply_to = true).
    { destruct reply_to as [k|]; [|reflexivity]. cbn [fk_nullable].
      rewrite message_exists_app. apply orb_true_iff.
      destruct (Hreply k eq_refl) as [-> | Hk].
      - right. apply String.eqb_refl.
      - left. exact Hk. }
    change (user_exists
              (with_messages
                 (messages db
                  ++ [Sql.message_row new_id now content
                        (post_values u room content reply_to)]) db) u)
      with (user_exists db u).
    change (room_exists
              (with_messages
                 (messages db
                  ++ [Sql.message_row new_id now content
                        (post_values u room content reply_to)]) db) room)
      with (room_exists db room).
    rewrite Hu, Hr, Hfk. reflexivity.
  - intros other Hneq. unfold Sql.insert_messages, Policy.messages_insert.
    rewrite insert_messages_rewritten. cbn [bind require].
    cbn [Policy.authenticated eq_nullable post_values Messages.v_user_id andb].
    apply String.eqb_neq in Hneq. rewrite Hneq. reflexivity.
Qed.

Lemma messages_insert_checks_author_only_witness :
  (forall uid v,
      Policy.messages_insert uid v = true <-> uid = Some (Messages.v_user_id v))
  /\ Sql.insert_messages (Some "u-bob") "m1" 20
       (post_values "u-bob" "r2" "hi" (Some "m1")) one_private_room
     = Ok (with_messages
             (messages one_private_room
              ++ [posted_message "u-bob" "r2" "m1" 20 "hi" (Some "m1")])
             one_private_room)
  /\ (forall other, other <> "u-bob" ->
        Sql.insert_messages (Some other) "m1" 20
          (post_values "u-bob" "r2" "hi" (Some "m1")) one_private_room
        = Err rls_violation).
Proof.
  apply (messages_insert_checks_author_only one_private_room "u-bob" "r2"
           "m1" 20 "hi" (Some "m1")); try reflexivity.
  intros k Hk. left. congruence.
Defined.

(** ** Listing rooms *)

Lemma insert_by_created_at_perm : forall r l,
  Permutation (Sql.insert_by_created_at r l) (r :: l).
Proof.
  intros r l. induction l as [|x l IH]; simpl.
  - apply Permutation_refl.
  - destruct (ChatRooms.created_at r <=? ChatRooms.created_at x).
    + apply Permutation_refl.
    + apply perm_trans with (x :: r :: l).
      * apply perm_skip. exact IH.
      * apply perm_swap.
Qed.

Lemma order_by_created_at_perm : forall l,
  Permutation (Sql.order_by_created_at l) l.
Proof.
  induction l as [|r l IH]; simpl.
  - apply perm_nil.
  - apply perm_trans with (r :: Sql.order_by_created_at l).
    + apply insert_by_created_at_perm.
    + apply perm_skip. exact IH.
Qed.

Lemma insert_by_created_at_sorted : forall r l,
  StronglySorted created_at_le l ->
  StronglySorted created_at_le (Sql.insert_by_created_at r l).
Proof.
  intros r l Hs. induction Hs as [|x l Hs IH Hall]; simpl.
  - constructor; constructor.
  - destruct (ChatRooms.created_at r <=? ChatRooms.created_at x) eqn:E.
    + apply Z.leb_le in E. constructor.
      * constructor; assumption.
      * constructor; [exact E|].
        eapply Forall_impl; [|exact Hall].
        intros y Hy. unfold created_at_le in *. lia.
    + apply Z.leb_gt in E. constructor; [exact IH|].
      eapply Permutation_Forall.
      * apply Permutation_sym. apply insert_by_created_at_perm.
      * constructor; [unfold created_at_le; lia | exact Hall].
Qed.

Lemma order_by_created_at_sorted : forall l,
  StronglySorted created_at_le (Sql.order_by_created_at l).
Proof.
  induction l as [|r l IH]; simpl.
  - constructor.
  - apply insert_by_created_at_sorted. exact IH.
Qed.

Lemma select_chat_rooms_all : forall uid db,
  Sql.select_chat_rooms uid db = chat_rooms db.
Proof.
  intros uid db. unfold Sql.select_chat_rooms.
  induction (chat_rooms db) as [|r l IH]; simpl; [reflexivity|].
  now rewrite IH.
Qed.

(** C3, as stated, fails: bob holds no membership in the private room "r2",
    and the room is in the list bob is given. *)
Lemma listRooms_shows_private_room_to_non_member :
  memberships one_private_room "r2" "u-bob" = []
  /\ exists r, In r (Client.listRooms (Some "u-bob") one_private_room)
               /\ ChatRooms.id r = "r2"
               /\ ChatRooms.is_private r = true.
Proof.
  split; [reflexivity|].
  eexists. split; [left; reflexivity|]. split; reflexivity.
Qed.

(** C3, amended: for every caller, signed in or not, [listRooms] returns every
    room of [chat_rooms], public or private and whatever the caller's
    memberships, each once, ordered by [created_at] ascending. *)
Theorem listRooms_all_rooms_by_created_at :
  forall (uid : option uuid) (db : Db),
    Permutation (Client.listRooms uid db) (chat_rooms db)
    /\ StronglySorted created_at_le (Client.listRooms uid db).
Proof.
  intros uid db. unfold Client.listRooms. rewrite select_chat_rooms_all.
  split.
  - apply order_by_created_at_perm.
  - apply order_by_created_at_sorted.
Qed.

(** ** Visibility of a room *)

Lemma Forall2_map_same : forall (A : Type) (P : A -> A -> Prop) (f : A -> A)
    (l : list A),
  (forall x, In x l -> P x (f x)) -> Forall2 P l (map f l).
Proof.
  intros A P f l. induction l as [|a l IH]; simpl; intros H.
  - constructor.
  - constructor.
    + apply H. now left.
    + apply IH. intros x Hx. apply H. now right.
Qed.

Lemma forallb_map_filter : forall (A : Type) (p h : A -> bool) (g : A -> A)
    (l : list A),
  (forall x, h x = true -> p (g x) = true) ->
  forallb p (map g (filter h l)) = true.
Proof.
  intros A p h g l H. induction l as [|a l IH]; simpl; [reflexivity|].
  destruct (h a) eqn:E; simpl; [|exact IH].
  rewrite (H a E). exact IH.
Qed.

(** C5, as stated, fails: with one UPDATE alice, the creator of the public
    room "r1", makes it private after it was created. *)
Lemma creator_changes_is_private :
  map ChatRooms.is_private (chat_rooms one_public_room) = [false]
  /\ exists db',
       Sql.update_chat_rooms (Some "u-alice") "r1" (set_visibility true)
         one_public_room = Ok db'
       /\ map ChatRooms.id (chat_rooms db') = ["r1"]
       /\ map ChatRooms.is_private (chat_rooms db') = [true].
Proof.
  split; [reflexivity|]. eexists. repeat split.
Qed.

(** C5, amended: [is_private] can be changed after creation, by the creator
    of the room and by no one else.  The UPDATE policy of [chat_rooms] lets
    through the rows whose [created_by] is the caller: an UPDATE of
    [is_private] by the creator of a room is carried out, and an UPDATE by any
    caller, with any SET list, leaves every room as it was whose [created_by]
    is not that caller (among them the rooms whose [created_by] is NULL). *)
Theorem is_private_updated_by_creator_only :
  forall (db : Db) (u : uuid) (r : ChatRooms.row) (b : bool),
    In r (chat_rooms db) ->
    ChatRooms.created_by r = Some u ->
    user_exists db u = true ->
    (exists db',
        Sql.update_chat_rooms (Some u) (ChatRooms.id r) (set_visibility b) db
        = Ok db'
        /\ In (Sql.assign_chat_room (set_visibility b) r) (chat_rooms db')
        /\ ChatRooms.is_private (Sql.assign_chat_room (set_visibility b) r)
           = b)
    /\ (forall uid rid a db',
          Sql.update_chat_rooms uid rid a db = Ok db' ->
          Forall2 (fun x x' =>
                     eq_nullable2 uid (ChatRooms.created_by x) = false ->
                     x' = x)
                  (chat_rooms db) (chat_rooms db')).
Proof.
  intros db u r b Hin Hby Hu. split.
  - unfold Sql.update_chat_rooms.
    rewrite check_pass.
    2:{ apply forallb_map_filter. intros x Hx.
        apply andb_true_iff in Hx. destruct Hx as [_ Hx]. exact Hx. }
    rewrite check_pass.
    2:{ apply forallb_map_filter. intros x Hx.
        apply andb_true_iff in Hx. destruct Hx as [_ Hx].
        unfold Policy.chat_rooms_update in Hx.
        apply eq_nullable2_spec in Hx. destruct Hx as [v [Hv Hx]].
        injection Hv as <-. simpl. rewrite Hx. simpl. exact Hu. }
    eexists. split; [reflexivity|]. split; [|reflexivity].
    simpl. apply in_map_iff. exists r. split; [|exact Hin].
    unfold Policy.chat_rooms_update. rewrite Hby. simpl.
    rewrite !String.eqb_refl. reflexivity.
  - intros uid rid a db' Hupd. unfold Sql.update_chat_rooms in Hupd.
    destruct (forallb _ _); simpl in Hupd; [|discriminate].
    destruct (forallb _ _); simpl in Hupd; [|discriminate].
    injection Hupd as <-. simpl. apply Forall2_map_same.
    intros x _ Hx. unfold Policy.chat_rooms_update. rewrite Hx.
    rewrite andb_false_r. reflexivity.
Qed.

Lemma is_private_updated_by_creator_only_witness :
  (exists db',
      Sql.update_chat_rooms (Some "u-alice")
        (ChatRooms.id (created_room "u-alice" "r1" 10 "lobby" None))
        (set_visibility true) one_public_room
      = Ok db'
      /\ In (Sql.assign_chat_room (set_visibility true)
               (created_room "u-alice" "r1" 10 "lobby" None))
            (chat_rooms db')
      /\ ChatRooms.is_private
           (Sql.assign_chat_room (set_visibility true)
              (created_room "u-alice" "r1" 10 "lobby" None))
         = true)
  /\ (forall uid rid a db',
        Sql.update_chat_rooms uid rid a one_public_room = Ok db' ->
        Forall2 (fun x x' =>
                   eq_nullable2 uid (ChatRooms.created_by x) = false ->
                   x' = x)
                (chat_rooms one_public_room) (chat_rooms db')).
Proof.
  apply (is_private_updated_by_creator_only one_public_room "u-alice"
           (created_room "u-alice" "r1" 10 "lobby" None) true).
  - simpl. left. reflexivity.
  - reflexivity.
  - reflexivity.
Defined.

(** ** Joining a room *)

(** The policy "Room members are viewable by room members" reads the table
    it protects: it cannot be expanded, and neither can the SELECT policies of
    [messages] and [message_reactions], which read [room_members]. *)
Lemma select_policies_expanded :
  Rewriter.select_expands Rewriter.profiles_t = true
  /\ Rewriter.select_expands Rewriter.chat_rooms_t = true
  /\ Rewriter.select_expands Rewriter.room_members_t = false
  /\ Rewriter.select_expands Rewriter.messages_t = false
  /\ Rewriter.select_expands Rewriter.message_reactions_t = false.
Proof. repeat split. Qed.

(** The fuel of the expansion is enough: more of it gives the same
    answers. *)
Lemma select_expands_fuel : forall n t,
  Rewriter.expands (6 + n) [] t = Rewriter.select_expands t.
Proof. intros n []; reflexivity. Qed.

(** The upsert of a membership reads [room_members]: it is refused when it is
    rewritten, whatever the caller, the values and the database. *)
Lemma upsert_room_members_refused : forall uid new_id now v db,
  Sql.upsert_room_members uid new_id now v db = Err infinite_recursion.
Proof. intros uid new_id now v db. reflexivity. Qed.

Lemma joinRoom_unchanged : forall u r new_id now db,
  Client.joinRoom u r new_id now db = db.
Proof.
  intros u r new_id now db. unfold Client.joinRoom.
  now rewrite upsert_room_members_refused.
Qed.

Lemma joinRoom_again : forall u r (more : list (uuid * timestamptz)) db,
  fold_left (fun d g => Client.joinRoom u r (fst g) (snd g) d) more db = db.
Proof.
  intros u r more. induction more as [|g more IH]; intros db; simpl.
  - reflexivity.
  - rewrite joinRoom_unchanged. apply IH.
Qed.

(** The UNIQUE constraint is kept by every join. *)
Lemma joinRoom_keeps_unique_memberships : forall u r new_id now db,
  unique_memberships db ->
  unique_memberships (Client.joinRoom u r new_id now db).
Proof.
  intros u r new_id now db Huniq. now rewrite joinRoom_unchanged.
Qed.

(** *** [joinDefaultRooms] as a whole *)

Lemma public_room_ids_spec : forall uid db r,
  In r (Client.public_room_ids uid db) <-> is_public_room db r = true.
Proof.
  intros uid db r. unfold Client.public_room_ids, is_public_room.
  rewrite select_chat_rooms_all, in_map_iff, existsb_exists. split.
  - intros [x [<- Hx]]. apply filter_In in Hx. destruct Hx as [Hin Hpub].
    exists x. split; [exact Hin|]. now rewrite String.eqb_refl.
  - intros [x [Hin Hx]]. apply andb_true_iff in Hx. destruct Hx as [Hid Hpub].
    apply String.eqb_eq in Hid. exists x. split; [exact Hid|].
    apply filter_In. split; assumption.
Qed.

Lemma join_each_unchanged : forall u defaults rs db,
  Client.join_each u defaults rs db = db.
Proof.
  intros u defaults. induction rs as [|r rs IH]; intros db; simpl;
    [reflexivity|].
  rewrite joinRoom_unchanged. apply IH.
Qed.

(** C6 fails on the code: the upsert of [joinDefaultRooms] is refused by the
    database whenever it is issued (infinite recursion in the policy of
    [room_members]), the client goes on without reading the error, and so no
    number of joins of the user [u] into the room [r] stores a membership: the
    pair has the rows it had before, none for a user who was no member. *)
Theorem joinRoom_stores_no_membership :
  forall (u r : uuid) (db : Db) (joins : list (uuid * timestamptz)),
    (forall id0 t0,
        Sql.upsert_room_members (Some u) id0 t0 (join_values u r) db
        = Err infinite_recursion)
    /\ fold_left (fun d g => Client.joinRoom u r (fst g) (snd g) d) joins db
       = db
    /\ memberships
         (fold_left (fun d g => Client.joinRoom u r (fst g) (snd g) d)
                    joins db) r u
       = memberships db r u.
Proof.
  intros u r db joins. split; [|split].
  - intros id0 t0. apply upsert_room_members_refused.
  - apply joinRoom_again.
  - now rewrite joinRoom_again.
Qed.

(** Bob is signed up and the room "r1" is public, yet he is no member of it
    after joining it three times. *)
Example bob_joins_public_room :
  user_exists one_public_room "u-bob" = true
  /\ is_public_room one_public_room "r1" = true
  /\ memberships
       (fold_left (fun d g => Client.joinRoom "u-bob" "r1" (fst g) (snd g) d)
                  [("m1", 20); ("m2", 21); ("m3", 22)] one_public_room)
       "r1" "u-bob" = [].
Proof. repeat split. Qed.

(** ** Reactions *)

Lemma is_reaction_spec : forall m u e x,
  is_reaction m u e x = true <->
  MessageReactions.message_id x = m
  /\ MessageReactions.user_id x = u
  /\ MessageReactions.emoji x = e.
Proof.
  intros m u e x. unfold is_reaction.
  rewrite !andb_true_iff, !String.eqb_eq. tauto.
Qed.

Lemma existsb_filter_nil : forall (A : Type) (f : A -> bool) (l : list A),
  filter f l = [] -> existsb f l = false.
Proof.
  intros A f l. induction l as [|a l IH]; simpl; [reflexivity|].
  destruct (f a); simpl; [discriminate | exact IH].
Qed.

Lemma find_message_some : forall db m x,
  find_message db m = Some x ->
  In x (messages db) /\ Messages.id x = m /\ message_exists db m = true.
Proof.
  intros db m x H. unfold find_message in H. apply find_some in H.
  destruct H as [Hin Hid]. apply String.eqb_eq in Hid.
  split; [exact Hin|]. split; [exact Hid|].
  unfold message_exists. apply has_key_in. subst m. now apply in_map.
Qed.

(** A DELETE with a WHERE clause reads [message_reactions], whose SELECT
    policy leads to [room_members]: it is refused when it is rewritten. *)
Lemma try_delete_message_reactions_refused : forall uid m u e db,
  Sql.try_delete_message_reactions uid m u e db = Err infinite_recursion.
Proof. intros uid m u e db. reflexivity. Qed.

Lemma delete_message_reactions_unchanged : forall uid m u e db,
  Sql.delete_message_reactions uid m u e db = db.
Proof. intros uid m u e db. reflexivity. Qed.

(** C7 fails on the code: the first half of the toggle works, the second does
    not.  In a database that satisfies the UNIQUE constraint, the reaction of
    a signed-up user who can read the room of the message, absent so far, is
    stored by [react]: the constraint still holds, the triple has one row and
    a second [react] is refused as a duplicate (a user who cannot read the
    room is refused, Forbidden).  But [unreact] is then refused by the
    database (infinite recursion in the policies the DELETE brings in) and
    the row stays: the reaction-absent state is not restored. *)
Theorem unreact_is_refused :
  forall (db : Db) (u m : uuid) (e : text) (new_id : uuid)
         (now : timestamptz) (x : Messages.row),
    unique_reactions db ->
    find_message db m = Some x ->
    canRead db u (Messages.room_id x) = true ->
    user_exists db u = true ->
    reactions db m u e = [] ->
    has_key new_id (map MessageReactions.id (message_reactions db)) = false ->
    exists db1,
      react u new_id now m e db = inl db1
      /\ unique_reactions db1
      /\ List.length (reactions db1 m u e) = 1%nat
      /\ (forall id' now',
            react u id' now' m e db1 = inr (Database unique_violation))
      /\ unreact u m e db1 = inr (Database infinite_recursion)
      /\ Sql.delete_message_reactions (Some u) m u e db1 = db1
      /\ (forall v id' now',
            canRead db v (Messages.room_id x) = false ->
            react v id' now' m e db = inr Forbidden).
Proof.
  intros db u m e new_id now x Huniq Hfind Hread Hu Habsent Hfresh.
  pose proof (existsb_filter_nil _ _ _ Habsent) as Hnone.
  destruct (find_message_some db m x Hfind) as [_ [_ Hm]].
  set (row := {| MessageReactions.id := new_id;
                 MessageReactions.message_id := m;
                 MessageReactions.user_id := u;
                 MessageReactions.emoji := e;
                 MessageReactions.created_at := now |}).
  set (db1 := with_message_reactions (message_reactions db ++ [row]) db).
  assert (Hself : is_reaction m u e row = true).
  { apply is_reaction_spec. repeat split. }
  assert (Hins : Sql.insert_message_reactions (Some u) new_id now m u e db
                 = Ok db1).
  { unfold Sql.insert_message_reactions, Policy.message_reactions_all.
    simpl. rewrite String.eqb_refl, Hfresh, Hnone, Hm, Hu. reflexivity. }
  assert (Hfind1 : find_message db1 m = Some x) by exact Hfind.
  assert (Hread1 : canRead db1 u (Messages.room_id x) = true) by exact Hread.
  exists db1. split; [|split; [|split; [|split; [|split; [|split]]]]].
  - unfold react. rewrite Hfind, Hread, Hins. reflexivity.
  - intros m' u' e'. unfold reactions. simpl.
    rewrite filter_app, length_app. simpl.
    destruct (is_reaction m' u' e' row) eqn:Hx; simpl.
    + apply is_reaction_spec in Hx. simpl in Hx.
      destruct Hx as [<- [<- <-]]. unfold reactions in Habsent.
      rewrite Habsent. simpl. lia.
    + specialize (Huniq m' u' e'). unfold reactions in Huniq. lia.
  - unfold reactions. simpl. rewrite filter_app. unfold reactions in Habsent.
    rewrite Habsent. simpl. rewrite Hself. reflexivity.
  - intros id' now'. unfold react. rewrite Hfind1, Hread1.
    unfold Sql.insert_message_reactions, Policy.message_reactions_all.
    simpl. rewrite String.eqb_refl. simpl. rewrite existsb_app. simpl.
    rewrite Hself. rewrite orb_true_r, andb_false_r. reflexivity.
  - unfold unreact. rewrite Hfind1, Hread1.
    rewrite try_delete_message_reactions_refused. reflexivity.
  - apply delete_message_reactions_unchanged.
  - intros v id' now' Hv. unfold react. rewrite Hfind, Hv. reflexivity.
Qed.

Lemma unreact_is_refused_witness :
  exists db1,
    react "u-bob" "x1" 30 "m1" "+1" one_message = inl db1
    /\ unique_reactions db1
    /\ List.length (reactions db1 "m1" "u-bob" "+1") = 1%nat
    /\ (forall id' now',
          react "u-bob" id' now' "m1" "+1" db1
          = inr (Database unique_violation))
    /\ unreact "u-bob" "m1" "+1" db1 = inr (Database infinite_recursion)
    /\ Sql.delete_message_reactions (Some "u-bob") "m1" "u-bob" "+1" db1 = db1
    /\ (forall v id' now',
          canRead one_message v
            (Messages.room_id
               (posted_message "u-alice" "r1" "m1" 20 "hello" None)) = false ->
          react v id' now' "m1" "+1" one_message = inr Forbidden).
Proof.
  apply (unreact_is_refused one_message "u-bob" "m1" "+1" "x1" 30
           (posted_message "u-alice" "r1" "m1" 20 "hello" None)).
  - intros m u e. simpl. lia.
  - reflexivity.
  - reflexivity.
  - reflexivity.
  - reflexivity.
  - reflexivity.
Defined.

(** Bob's reaction to a message of the private room "r2", of which he is no
    member, is refused. *)
Example react_needs_canRead :
  react "u-bob" "x1" 30 "m1" "+1"
    (with_messages [posted_message "u-alice" "r2" "m1" 20 "hello" None]
       one_private_room)
  = inr Forbidden.
Proof. reflexivity. Qed.

(** ** Editing a message *)

(** An UPDATE with a WHERE clause reads [messages], whose SELECT policy reads
    [room_members]: it is refused when it is rewritten. *)
Lemma update_messages_refused : forall uid mid a db,
  Sql.update_messages uid mid a db = Err infinite_recursion.
Proof. intros uid mid a db. reflexivity. Qed.

(** C8 fails on the code in its second half.  [canEditMessage] holds exactly
    for the author; but the edit of a stored message by its author, which
    the access control layer lets through, is refused by the database
    (infinite recursion in the policy the UPDATE brings in), as is every
    UPDATE of [messages]: no edit succeeds and [edited_at] is never set.  An
    edit attempted by anyone else is refused before it reaches the database
    (Forbidden). *)
Theorem author_edit_is_refused :
  forall (db : Db) (m : Messages.row) (newContent : text)
         (now : timestamptz),
    find_message db (Messages.id m) = Some m ->
    (forall u x, canEditMessage u x = true <-> u = Messages.user_id x)
    /\ editMessage (Messages.user_id m) (Messages.id m) newContent now db
       = inr (Database infinite_recursion)
    /\ (forall u, u <> Messages.user_id m ->
          editMessage u (Messages.id m) newContent now db = inr Forbidden)
    /\ (forall uid mid a,
          Sql.update_messages uid mid a db = Err infinite_recursion).
Proof.
  intros db m newContent now Hfind.
  assert (Hcan : forall u x,
             canEditMessage u x = true <-> u = Messages.user_id x).
  { intros u x. unfold canEditMessage, Policy.messages_update.
    rewrite eq_nullable_spec. split; congruence. }
  split; [exact Hcan|]. split; [|split].
  - unfold editMessage. rewrite Hfind.
    rewrite (proj2 (Hcan _ _) eq_refl), update_messages_refused.
    reflexivity.
  - intros u Hneq. unfold editMessage. rewrite Hfind.
    destruct (canEditMessage u m) eqn:E; [|reflexivity].
    apply Hcan in E. contradiction.
  - intros uid mid a. apply update_messages_refused.
Qed.

Lemma author_edit_is_refused_witness :
  (forall u x, canEditMessage u x = true <-> u = Messages.user_id x)
  /\ editMessage "u-alice" "m1" "edited" 40 one_message
     = inr (Database infinite_recursion)
  /\ (forall u, u <> "u-alice" ->
        editMessage u "m1" "edited" 40 one_message = inr Forbidden)
  /\ (forall uid mid a,
        Sql.update_messages uid mid a one_message = Err infinite_recursion).
Proof.
  apply (author_edit_is_refused one_message
           (posted_message "u-alice" "r1" "m1" 20 "hello" None) "edited" 40).
  reflexivity.
Defined.

(** ** The mock rooms of the client *)

(** Rooms that arrive before the timer is due re-arm it with a non-zero
    [rooms.length], and its callback then leaves the rooms alone. *)
Lemma rooms_in_time_are_kept :
  forall t0 t t' date first rest,
    let c := Client.fetchRooms t (Client.resolved (Some (first :: rest)))
               (Client.mount t0) in
    Client.rooms (Client.tick t' date c)
    = map Client.of_row (first :: rest).
Proof.
  intros t0 t t' date first rest. cbv zeta.
  unfold Client.tick, Client.fetchRooms, Client.setRooms. simpl.
  destruct (t + 3000 <=? t'); reflexivity.
Qed.

(** C9: when, by the time the timer set at mount is due (3000 ms after the
    mount), the backend has returned no rooms (no response yet, a failed
    query, no data or an empty list), nothing happens before that time, and
    at that time the client replaces its rooms by the four mock rooms
    general, random, tech-talk and announcements, with the ids "1" to "4" and
    the current dates as [created_at], and makes the first of them the active
    room. *)
Theorem mock_rooms_after_three_seconds :
  forall (t0 : Z) (date : nat -> timestamptz)
         (before : option (Z * Client.response)),
    (forall t r, before = Some (t, r) ->
                 t0 <= t < t0 + 3000 /\ Client.no_rooms r = true) ->
    (forall t, t < t0 + 3000 ->
               Client.tick t date (before_timer t0 before)
               = before_timer t0 before)
    /\ let c := Client.tick (t0 + 3000) date (before_timer t0 before) in
       Client.rooms c = Client.mockRooms date
       /\ map Client.id (Client.rooms c) = ["1"; "2"; "3"; "4"]
       /\ map Client.name (Client.rooms c)
          = ["general"; "random"; "tech-talk"; "announcements"]
       /\ map Client.created_at (Client.rooms c)
          = [date 0%nat; date 1%nat; date 2%nat; date 3%nat]
       /\ Client.activeRoom c = hd_error (Client.mockRooms date)
       /\ option_map Client.name (Client.activeRoom c) = Some "general".
Proof.
  intros t0 date before Hquiet.
  assert (Hc : before_timer t0 before
               = {| Client.rooms := []; Client.activeRoom := None;
                    Client.effect_length := 0;
                    Client.timeout := Some (t0 + 3000) |}).
  { destruct before as [[t r]|]; [|reflexivity].
    destruct (Hquiet t r eq_refl) as [_ Hr].
    destruct r as [|[[|x l]|]]; simpl in Hr; try discriminate; reflexivity. }
  rewrite Hc. split.
  - intros t Ht. unfold Client.tick. simpl.
    destruct (t0 + 3000 <=? t) eqn:E; [|reflexivity].
    apply Z.leb_le in E. lia.
  - cbv zeta. unfold Client.tick. simpl. rewrite Z.leb_refl.
    repeat split.
Qed.

Lemma mock_rooms_after_three_seconds_witness :
  (forall t, t < 0 + 3000 ->
             Client.tick t (fun _ => 3000)
               (before_timer 0 (Some (1200, Client.resolved (Some []))))
             = before_timer 0 (Some (1200, Client.resolved (Some []))))
  /\ let c := Client.tick (0 + 3000) (fun _ => 3000)
                (before_timer 0 (Some (1200, Client.resolved (Some [])))) in
     Client.rooms c = Client.mockRooms (fun _ => 3000)
     /\ map Client.id (Client.rooms c) = ["1"; "2"; "3"; "4"]
     /\ map Client.name (Client.rooms c)
        = ["general"; "random"; "tech-talk"; "announcements"]
     /\ map Client.created_at (Client.rooms c) = [3000; 3000; 3000; 3000]
     /\ Client.activeRoom c = hd_error (Client.mockRooms (fun _ => 3000))
     /\ option_map Client.name (Client.activeRoom c) = Some "general".
Proof.
  apply (mock_rooms_after_three_seconds 0 (fun _ => 3000)
           (Some (1200, Client.resolved (Some [])))).
  intros t r H. injection H as <- <-. split; [lia | reflexivity].
Defined.

(** ** Signup *)

Lemma split_part_first : forall s d,
  split_part s d 1 = substring_before d s.
Proof.
  intros s d. unfold split_part. simpl.
  induction s as [|c r IH]; simpl; [reflexivity|].
  destruct (Ascii.eqb c d); [reflexivity|].
  destruct (split_fields r d) as [|f fs]; simpl in *; now rewrite <- IH.
Qed.

(** What [substring_before] returns is a prefix without the delimiter, and
    what follows it is nothing or starts with the delimiter. *)
Lemma substring_before_spec : forall d s,
  exists rest,
    s = (substring_before d s ++ rest)%string
    /\ (forall c, In c (list_ascii_of_string (substring_before d s)) ->
                  c <> d)
    /\ (rest = EmptyString
        \/ exists tail, rest = String d tail).
Proof.
  intros d s. induction s as [|c r IH]; simpl.
  - exists EmptyString. repeat split; [intros c []| now left].
  - destruct (Ascii.eqb c d) eqn:E.
    + apply Ascii.eqb_eq in E. subst c. exists (String d r). simpl.
      repeat split; [intros c [] | right; now exists r].
    + destruct IH as [rest [Hs [Hno Hrest]]]. exists rest. simpl.
      split; [now rewrite <- Hs|]. split; [|exact Hrest].
      intros x [<-|Hx]; [now apply Ascii.eqb_neq | now apply Hno].
Qed.

(** *** The base64 text of the avatar decodes to the bytes it was made from *)

Lemma land_63_lt : forall n, (N.to_nat (N.land n 63) < 64)%nat.
Proof.
  intros n. change 63%N with (N.ones 6). rewrite N.land_ones.
  change (2 ^ 6)%N with 64%N.
  pose proof (N.mod_upper_bound n 64) as H.
  assert (H0 : (64 <> 0)%N) by discriminate. specialize (H H0).
  lia.
Qed.

Lemma base64_digit_facts : forall n,
  base64_value (base64_digit n) = Some (N.land n 63)
  /\ Ascii.eqb (base64_digit n) newline = false
  /\ Ascii.eqb (base64_digit n) "="%char = false.
Proof.
  intros n. unfold base64_digit.
  pose proof (land_63_lt n) as H.
  rewrite <- (N2Nat.id (N.land n 63)) at 2.
  generalize dependent (N.to_nat (N.land n 63)). intros k H.
  do 64 (destruct k as [|k]; [repeat split|]).
  lia.
Qed.

Lemma decoded_1 : forall a,
  ascii_of_N
    (N.lor (N.shiftl (N.land (N.shiftr (N.shiftl (N_of_ascii a) 16) 18) 63) 2)
           (N.shiftr (N.land (N.shiftr (N.shiftl (N_of_ascii a) 16) 12) 63)
                     4))
  = a.
Proof. intros a. byte a. Qed.

Lemma decoded_2_1 : forall a b,
  ascii_of_N
    (N.lor
       (N.shiftl
          (N.land
             (N.shiftr (N.lor (N.shiftl (N_of_ascii a) 16)
                              (N.shiftl (N_of_ascii b) 8)) 18) 63) 2)
       (N.shiftr
          (N.land
             (N.shiftr (N.lor (N.shiftl (N_of_ascii a) 16)
                              (N.shiftl (N_of_ascii b) 8)) 12) 63) 4))
  = a.
Proof. intros a b. distribute. zero_leaves b. byte a. Qed.

Lemma decoded_2_2 : forall a b,
  ascii_of_N
    (N.lor
       (N.shiftl
          (N.land
             (N.land
                (N.shiftr (N.lor (N.shiftl (N_of_ascii a) 16)
                                 (N.shiftl (N_of_ascii b) 8)) 12) 63) 15) 4)
       (N.shiftr
          (N.land
             (N.shiftr (N.lor (N.shiftl (N_of_ascii a) 16)
                              (N.shiftl (N_of_ascii b) 8)) 6) 63) 2))
  = b.
Proof. intros a b. distribute. zero_leaves a. byte b. Qed.

Lemma decoded_3_1 : forall a b c,
  ascii_of_N
    (N.lor
       (N.shiftl
          (N.land
             (N.shiftr
                (N.lor (N.lor (N.shiftl (N_of_ascii a) 16)
                              (N.shiftl (N_of_ascii b) 8))
                       (N_of_ascii c)) 18) 63) 2)
       (N.shiftr
          (N.land
             (N.shiftr
                (N.lor (N.lor (N.shiftl (N_of_ascii a) 16)
                              (N.shiftl (N_of_ascii b) 8))
                       (N_of_ascii c)) 12) 63) 4))
  = a.
Proof. intros a b c. distribute. zero_leaves c. zero_leaves b. byte a. Qed.

Lemma decoded_3_2 : forall a b c,
  ascii_of_N
    (N.lor
       (N.shiftl
          (N.land
             (N.land
                (N.shiftr
                   (N.lor (N.lor (N.shiftl (N_of_ascii a) 16)
                                 (N.shiftl (N_of_ascii b) 8))
                          (N_of_ascii c)) 12) 63) 15) 4)
       (N.shiftr
          (N.land
             (N.shiftr
                (N.lor (N.lor (N.shiftl (N_of_ascii a) 16)
                              (N.shiftl (N_of_ascii b) 8))
                       (N_of_ascii c)) 6) 63) 2))
  = b.
Proof. intros a b c. distribute. zero_leaves c. zero_leaves a. byte b. Qed.

Lemma decoded_3_3 : forall a b c,
  ascii_of_N
    (N.lor
       (N.shiftl
          (N.land
             (N.land
                (N.shiftr
                   (N.lor (N.lor (N.shiftl (N_of_ascii a) 16)
                                 (N.shiftl (N_of_ascii b) 8))
                          (N_of_ascii c)) 6) 63) 3) 6)
       (N.land
          (N.lor (N.lor (N.shiftl (N_of_ascii a) 16)
                        (N.shiftl (N_of_ascii b) 8))
                 (N_of_ascii c)) 63))
  = c.
Proof. intros a b c. distribute. zero_leaves a. zero_leaves b. byte c. Qed.

Lemma list_ind3 : forall (A : Type) (P : list A -> Prop),
  P [] -> (forall a, P [a]) -> (forall a b, P [a; b]) ->
  (forall a b c l, P l -> P (a :: b :: c :: l)) ->
  forall l, P l.
Proof.
  intros A P H0 H1 H2 H3 l.
  assert (H : P l /\ (forall a, P (a :: l)) /\ (forall a b, P (a :: b :: l))).
  { induction l as [|x l [IH0 [IH1 IH2]]].
    - repeat split; auto.
    - split; [apply IH1|]. split; [intros a; apply IH2|].
      intros a b. apply H3. exact IH0. }
  apply H.
Qed.

Lemma base64_groups_lines : forall l g,
  base64_groups (filter (fun c => negb (Ascii.eqb c newline))
                        (base64_lines l g)) = Some l.
Proof.
  intros l. induction l as [| a | a b | a b c l IH] using list_ind3;
    intros g.
  - reflexivity.
  - cbn [base64_lines filter]. cbv zeta.
    repeat rewrite (proj1 (proj2 (base64_digit_facts _))).
    cbn [negb filter]. change (Ascii.eqb "="%char newline) with false.
    cbn [negb base64_groups].
    repeat rewrite (proj1 (base64_digit_facts _)).
    change (Ascii.eqb "="%char "="%char) with true. cbv iota.
    now rewrite decoded_1.
  - cbn [base64_lines filter]. cbv zeta.
    repeat rewrite (proj1 (proj2 (base64_digit_facts _))).
    cbn [negb filter]. change (Ascii.eqb "="%char newline) with false.
    cbn [negb base64_groups].
    repeat rewrite (proj1 (base64_digit_facts _)).
    repeat rewrite (proj2 (proj2 (base64_digit_facts _))).
    change (Ascii.eqb "="%char "="%char) with true. cbv iota zeta.
    now rewrite decoded_2_1, decoded_2_2.
  - cbn [base64_lines]. cbv zeta.
    assert (Hq : forall rest,
      base64_groups
        (filter (fun c => negb (Ascii.eqb c newline))
           ([base64_digit
               (N.shiftr
                  (N.lor (N.lor (N.shiftl (N_of_ascii a) 16)
                                (N.shiftl (N_of_ascii b) 8))
                         (N_of_ascii c)) 18);
             base64_digit
               (N.shiftr
                  (N.lor (N.lor (N.shiftl (N_of_ascii a) 16)
                                (N.shiftl (N_of_ascii b) 8))
                         (N_of_ascii c)) 12);
             base64_digit
               (N.shiftr
                  (N.lor (N.lor (N.shiftl (N_of_ascii a) 16)
                                (N.shiftl (N_of_ascii b) 8))
                         (N_of_ascii c)) 6);
             base64_digit
               (N.lor (N.lor (N.shiftl (N_of_ascii a) 16)
                             (N.shiftl (N_of_ascii b) 8))
                      (N_of_ascii c))] ++ rest))
      = option_map (fun r => a :: b :: c :: r)
          (base64_groups
             (filter (fun c => negb (Ascii.eqb c newline)) rest))).
    { intros rest. cbn [app filter].
      repeat rewrite (proj1 (proj2 (base64_digit_facts _))).
      cbn [negb base64_groups].
      repeat rewrite (proj1 (base64_digit_facts _)).
      repeat rewrite (proj2 (proj2 (base64_digit_facts _))).
      cbv iota zeta.
      now rewrite decoded_3_1, decoded_3_2, decoded_3_3. }
    destruct (Nat.eqb (S g) 19).
    + rewrite Hq. cbn [filter].
      change (Ascii.eqb newline newline) with true. cbn [negb].
      now rewrite IH.
    + rewrite Hq. now rewrite IH.
Qed.

Lemma base64_decode_encode : forall s,
  base64_decode (encode_base64 s) = Some s.
Proof.
  intros s. unfold base64_decode, encode_base64.
  rewrite list_ascii_of_string_of_list_ascii, base64_groups_lines.
  cbn [option_map]. now rewrite string_of_list_ascii_of_string.
Qed.

(** *** The cast of the email *)

Lemma escape_decode_plain : forall s,
  plain s -> Bytea.escape_decode s = Ok s.
Proof.
  unfold plain. induction s as [|c r IH]; intros Hs; [reflexivity|].
  cbn [Bytea.escape_decode].
  destruct (Ascii.eqb c Bytea.backslash) eqn:E.
  - apply Ascii.eqb_eq in E. exfalso. apply Hs. left. exact E.
  - cbn [negb]. rewrite IH; [reflexivity|].
    intros Hin. apply Hs. right. exact Hin.
Qed.

(** A text without a backslash is cast to its own bytes. *)
Lemma bytea_in_plain : forall s, plain s -> Bytea.bytea_in s = Ok s.
Proof.
  intros s Hs. pose proof (escape_decode_plain s Hs) as H.
  destruct s as [|c [|x r]]; try exact H.
  unfold Bytea.bytea_in.
  destruct (Ascii.eqb c Bytea.backslash) eqn:E; [|exact H].
  apply Ascii.eqb_eq in E. exfalso. apply Hs. left. exact E.
Qed.

(** So the avatar expression of the trigger evaluates for every email
    without a backslash, and whenever the metadata names an avatar. *)
Lemma avatar_url_of_plain : forall new e,
  AuthUsers.email new = Some e ->
  plain e ->
  exists a, Trigger.avatar_url_of new = Ok a.
Proof.
  intros new e Hemail Hplain. unfold Trigger.avatar_url_of.
  destruct (Trigger.json_text _ _); [eexists; reflexivity|].
  rewrite Hemail, (bytea_in_plain e Hplain). eexists. reflexivity.
Qed.

(** *** The trigger *)

(** A signup goes through only for a new user id, with no profile of that id
    and no profile of the username the trigger derives, and only when the
    avatar expression evaluates. *)
Lemma insert_auth_users_ok_only_if :
  forall now new db db' e,
    Trigger.json_text (AuthUsers.raw_user_meta_data new) "username" = None ->
    AuthUsers.email new = Some e ->
    Trigger.insert_auth_users now new db = Ok db' ->
    user_exists db (AuthUsers.id new) = false
    /\ has_key (AuthUsers.id new) (map Profiles.id (profiles db)) = false
    /\ username_taken db (Some (substring_before "@" e)) = false
    /\ exists a, Trigger.avatar_url_of new = Ok a.
Proof.
  intros now new db db' e Hname Hemail H.
  unfold Trigger.insert_auth_users in H.
  apply check_Ok in H. destruct H as [Hu H]. apply negb_true_iff in Hu.
  unfold Trigger.handle_new_user in H.
  destruct (Trigger.avatar_url_of new) as [a|x] eqn:Ha; [|discriminate H].
  cbn [bind] in H. unfold Sql.insert_profiles_definer, Trigger.username_of in H.
  rewrite Hname, Hemail in H. cbn [COALESCE Trigger.strict] in H.
  apply check_Ok in H. destruct H as [Huniq _].
  apply andb_true_iff in Huniq. destruct Huniq as [Hp Hfree].
  apply negb_true_iff in Hp. apply negb_true_iff in Hfree.
  rewrite split_part_first in Hfree.
  repeat split; try assumption. now exists a.
Qed.

(** C10: for a new user whose metadata has no username (the user id is new,
    no profile has that id, no profile has the username derived from the
    email, and the avatar expression of the trigger evaluates, as it does for
    every email without a backslash), the signup goes through and stores, in
    the same step as the user row, one profile row for the user, the only row
    with that id.  Its username is the part of the email before the '@'.  Its
    avatar_url, when the metadata has none, is the dicebear address followed
    by a seed made from the email alone: the seed is base64 text that decodes
    to the bytes the email is cast to, which are the email itself when it has
    no backslash. *)
Theorem handle_new_user_creates_profile :
  forall (now : timestamptz) (new : AuthUsers.row) (db : Db) (e : text)
         (a : option text),
    Trigger.json_text (AuthUsers.raw_user_meta_data new) "username" = None ->
    AuthUsers.email new = Some e ->
    user_exists db (AuthUsers.id new) = false ->
    has_key (AuthUsers.id new) (map Profiles.id (profiles db)) = false ->
    username_taken db (Some (substring_before "@" e)) = false ->
    Trigger.avatar_url_of new = Ok a ->
    exists db' p,
      Trigger.insert_auth_users now new db = Ok db'
      /\ auth_users db' = auth_users db ++ [new]
      /\ profiles db' = profiles db ++ [p]
      /\ filter (fun q => String.eqb (Profiles.id q) (AuthUsers.id new))
                (profiles db') = [p]
      /\ Profiles.id p = AuthUsers.id new
      /\ Profiles.username p = Some (substring_before "@" e)
      /\ Profiles.email p = Some e
      /\ Profiles.avatar_url p = a
      /\ (Trigger.json_text (AuthUsers.raw_user_meta_data new) "avatar_url"
          = None ->
          exists bytes seed,
            Bytea.bytea_in e = Ok bytes
            /\ Profiles.avatar_url p = Some (Trigger.dicebear ++ seed)%string
            /\ base64_decode seed = Some bytes
            /\ (plain e -> bytes = e)).
Proof.
  intros now new db e a Hname Hemail Hu Hp Hfree Ha.
  unfold Trigger.insert_auth_users.
  rewrite Hu. cbn [negb]. rewrite check_pass by reflexivity.
  unfold Trigger.handle_new_user. rewrite Ha. cbn [bind].
  unfold Sql.insert_profiles_definer, Trigger.username_of.
  rewrite Hname, Hemail. cbn [COALESCE Trigger.strict].
  rewrite split_part_first.
  cbn [profiles with_profiles auth_users with_auth_users].
  assert (Hfree' : username_taken
                     (with_auth_users (auth_users db ++ [new]) db)
                     (Some (substring_before "@" e)) = false)
    by exact Hfree.
  rewrite Hp, Hfree'. cbn [negb andb]. rewrite check_pass by reflexivity.
  rewrite check_pass.
  2:{ unfold user_exists. cbn [auth_users with_auth_users].
      apply has_key_in. rewrite map_app. apply in_or_app. right.
      left. reflexivity. }
  eexists. eexists. split; [reflexivity|].
  cbn [profiles with_profiles auth_users with_auth_users
       Profiles.id Profiles.username Profiles.email Profiles.avatar_url].
  split; [reflexivity|]. split; [reflexivity|].
  split; [|split; [reflexivity|split; [reflexivity|split; [reflexivity|
           split; [reflexivity|]]]]].
  - rewrite filter_app. cbn [filter Profiles.id].
    rewrite String.eqb_refl.
    rewrite filter_none; [reflexivity|].
    apply not_true_is_false. intros Hex. apply existsb_exists in Hex.
    destruct Hex as [q [Hq Heq]]. apply String.eqb_eq in Heq.
    assert (Hk : has_key (AuthUsers.id new) (map Profiles.id (profiles db))
                 = true).
    { apply has_key_in. rewrite <- Heq. now apply in_map. }
    congruence.
  - intros Hnone. unfold Trigger.avatar_url_of in Ha.
    rewrite Hnone, Hemail in Ha.
    destruct (Bytea.bytea_in e) as [bytes|x] eqn:Hcast; [|discriminate Ha].
    cbn [bind] in Ha. injection Ha as <-.
    exists bytes, (encode_base64 bytes).
    split; [reflexivity|]. split; [reflexivity|].
    split; [apply base64_decode_encode|].
    intros Hplain. rewrite (bytea_in_plain e Hplain) in Hcast. congruence.
Qed.

Lemma handle_new_user_creates_profile_witness :
  exists db' p,
    Trigger.insert_auth_users 50 carol two_users = Ok db'
    /\ auth_users db' = auth_users two_users ++ [carol]
    /\ profiles db' = profiles two_users ++ [p]
    /\ filter (fun q => String.eqb (Profiles.id q) (AuthUsers.id carol))
              (profiles db') = [p]
    /\ Profiles.id p = AuthUsers.id carol
    /\ Profiles.username p = Some (substring_before "@" "carol@example.com")
    /\ Profiles.email p = Some "carol@example.com"
    /\ Profiles.avatar_url p
       = Some "https://api.dicebear.com/7.x/initials/svg?seed=Y2Fyb2xAZXhhbXBsZS5jb20="
    /\ (Trigger.json_text (AuthUsers.raw_user_meta_data carol) "avatar_url"
        = None ->
        exists bytes seed,
          Bytea.bytea_in "carol@example.com" = Ok bytes
          /\ Profiles.avatar_url p = Some (Trigger.dicebear ++ seed)%string
          /\ base64_decode seed = Some bytes
          /\ (plain "carol@example.com" -> bytes = "carol@example.com")).
Proof.
  apply (handle_new_user_creates_profile 50 carol two_users
           "carol@example.com"); reflexivity.
Defined.

(** ** Worked values *)

Example two_users_signed_up :
  (db <- Trigger.insert_auth_users 1 alice no_users ;;
   Trigger.insert_auth_users 2 bob db)
  = Ok two_users.
Proof. reflexivity. Qed.

Example one_public_room_created :
  fst (Client.createRoom (Some "u-alice") 0 "r1" 10 "lobby" None
         (two_users, Client.mount 0))
  = one_public_room.
Proof. reflexivity. Qed.

Example one_private_room_inserted :
  option_map fst
    (match Sql.insert_chat_rooms (Some "u-alice") "r2" 10
             {| ChatRooms.v_name := Some "board";
                ChatRooms.v_description := None;
                ChatRooms.v_created_by := Some "u-alice";
                ChatRooms.v_is_private := Some true |} two_users with
     | Ok x => Some x
     | Err _ => None
     end)
  = Some one_private_room.
Proof. reflexivity. Qed.

Example one_message_posted :
  Sql.insert_messages (Some "u-alice") "m1" 20
    (post_values "u-alice" "r1" "hello" None) one_public_room
  = Ok one_message.
Proof. reflexivity. Qed.

(** The same post with [.select()] after the insert is refused. *)
Example one_message_posted_returning :
  Sql.insert_messages_returning (Some "u-alice") "m1" 20
    (post_values "u-alice" "r1" "hello" None) one_public_room
  = Err infinite_recursion.
Proof. reflexivity. Qed.

Example joinDefaultRooms_of_bob :
  Client.public_room_ids (Some "u-bob") one_public_room = ["r1"]
  /\ Client.joinDefaultRooms "u-bob" (fun r => ("m-" ++ r, 30)%string)
       one_public_room
     = one_public_room.
Proof. split; reflexivity. Qed.

Example split_part_email :
  split_part "alice@example.com" "@" 1 = "alice".
Proof. reflexivity. Qed.

Example encode_base64_email :
  encode_base64 "alice@example.com" = "YWxpY2VAZXhhbXBsZS5jb20=".
Proof. reflexivity. Qed.

Example signup_of_carol :
  match Trigger.insert_auth_users 50 carol two_users with
  | Ok db' => map Profiles.username (profiles db')
  | Err _ => []
  end = [Some "alice"; Some "bobby"; Some "carol"].
Proof. reflexivity. Qed.

Example signup_with_taken_username :
  match Trigger.insert_auth_users 50 carol two_users with
  | Ok db' =>
      Trigger.insert_auth_users 60
        {| AuthUsers.id := "u-carol2";
           AuthUsers.email := Some "carol@elsewhere.org";
           AuthUsers.raw_user_meta_data := [] |} db'
  | Err e => Err e
  end = Err unique_violation.
Proof. reflexivity. Qed.

Example bytea_in_values :
  Bytea.bytea_in "dave@example.com" = Ok "dave@example.com"
  /\ Bytea.bytea_in "a\b@example.com" = Err invalid_text_representation
  /\ Bytea.bytea_in "a\\b" = Ok "a\b"
  /\ Bytea.bytea_in "a\101b" = Ok "aAb"
  /\ Bytea.bytea_in "\x6869" = Ok "hi"
  /\ Bytea.bytea_in "\x686" = Err invalid_hexadecimal_data.
Proof. repeat split. Qed.

(** An email with a backslash and no avatar in the metadata: the cast fails
    and the signup with it; with an avatar in the metadata the cast is not
    evaluated. *)
Example signup_with_backslash :
  Trigger.insert_auth_users 50
    {| AuthUsers.id := "u-dave";
       AuthUsers.email := Some "da\ve@example.com";
       AuthUsers.raw_user_meta_data := [] |} two_users
  = Err invalid_text_representation
  /\ is_ok (Trigger.insert_auth_users 50
              {| AuthUsers.id := "u-dave";
                 AuthUsers.email := Some "da\ve@example.com";
                 AuthUsers.raw_user_meta_data := [("avatar_url", "d.png")] |}
              two_users)
     = true.
Proof. split; reflexivity. Qed.

(** * Further properties of the migration and of the client *)

(** ** Joining *)

(** X1: nobody gets a membership row through the upsert.  Whoever the caller
    (signed in or not), whatever the room (public, private or missing), the
    user and the role of the values, the statement is refused when it is
    rewritten, with the infinite recursion of the SELECT policy of
    [room_members], before the INSERT policy and the foreign keys are
    looked at; [joinRoom], which does not read the error, leaves the database
    as it was. *)
Theorem joinRoom_refused :
  forall (uid : option uuid) (v : RoomMembers.values) (u r new_id : uuid)
         (now : timestamptz) (db : Db),
    Sql.upsert_room_members uid new_id now v db = Err infinite_recursion
    /\ Client.joinRoom u r new_id now db = db.
Proof.
  intros uid v u r new_id now db. split.
  - apply upsert_room_members_refused.
  - apply joinRoom_unchanged.
Qed.

(** X2: whoever joins whatever room, in any number and order, no (room, user)
    pair ever gets a second membership row. *)
Theorem run_joins_keep_unique_memberships :
  forall (js : list join) (db : Db),
    unique_memberships db -> unique_memberships (run_joins js db).
Proof.
  induction js as [|j js IH]; intros db H; simpl; [exact H|].
  apply IH. apply joinRoom_keeps_unique_memberships. exact H.
Qed.

Lemma run_joins_keep_unique_memberships_witness :
  unique_memberships
    (run_joins
       [ {| j_user := "u-bob"; j_room := "r1"; j_id := "m1"; j_now := 30 |};
         {| j_user := "u-alice"; j_room := "r1"; j_id := "m2"; j_now := 31 |};
         {| j_user := "u-bob"; j_room := "r1"; j_id := "m3"; j_now := 32 |} ]
       one_public_room).
Proof.
  apply (run_joins_keep_unique_memberships _ one_public_room).
  intros r u. simpl. lia.
Defined.

(** X3: [joinDefaultRooms] joins nobody.  Whatever public rooms there are,
    the database after it is the database before it: the user is a member of
    the rooms it was a member of, and of no public room if it was a member
    of none. *)
Theorem joinDefaultRooms_stores_nothing :
  forall (u : uuid) (defaults : uuid -> uuid * timestamptz) (db : Db),
    Client.joinDefaultRooms u defaults db = db
    /\ (forall r, memberships (Client.joinDefaultRooms u defaults db) r u
                  = memberships db r u)
    /\ (room_members db = [] ->
        forall r, In r (Client.public_room_ids (Some u) db) ->
                  memberships (Client.joinDefaultRooms u defaults db) r u
                  = []).
Proof.
  intros u defaults db. unfold Client.joinDefaultRooms.
  rewrite join_each_unchanged. split; [reflexivity|].
  split; [reflexivity|].
  intros Hnone r _. unfold memberships. now rewrite Hnone.
Qed.

Lemma joinDefaultRooms_stores_nothing_witness :
  Client.joinDefaultRooms "u-bob" (fun r => (r, 40)) seeded_with_users
  = seeded_with_users
  /\ (forall r, memberships
                  (Client.joinDefaultRooms "u-bob" (fun r => (r, 40))
                     seeded_with_users) r "u-bob"
                = memberships seeded_with_users r "u-bob")
  /\ (room_members seeded_with_users = [] ->
      forall r, In r (Client.public_room_ids (Some "u-bob")
                        seeded_with_users) ->
                memberships
                  (Client.joinDefaultRooms "u-bob" (fun r => (r, 40))
                     seeded_with_users) r "u-bob"
                = []).
Proof.
  apply (joinDefaultRooms_stores_nothing "u-bob" (fun r => (r, 40))
           seeded_with_users).
Defined.

(** ** Creating and keeping rooms *)

(** X4: the creator of a room cannot join it either.  After [createRoom] and
    a [joinRoom] of any signed-up user into the new room, the creator like
    anyone else, the room is stored and public, and the user has no
    membership in it (the memberships of the database referring to existing
    rooms). *)
Theorem createRoom_then_joinRoom :
  forall (u v : uuid) (t : Z) (new_id member_id : uuid)
         (now joined : timestamptz) (name : string)
         (description : option string) (db : Db) (c : Client.Component),
    (forall m, In m (room_members db) ->
               room_exists db (RoomMembers.room_id m) = true) ->
    user_exists db u = true ->
    user_exists db v = true ->
    room_exists db new_id = false ->
    let db' := Client.joinRoom v new_id member_id joined
                 (fst (Client.createRoom (Some u) t new_id now name
                         description (db, c))) in
    is_public_room db' new_id = true
    /\ room_members db' = room_members db
    /\ memberships db' new_id v = [].
Proof.
  intros u v t new_id member_id now joined name description db c
         Hfk Hu Hv Hfresh. cbv zeta.
  rewrite joinRoom_unchanged.
  rewrite (createRoom_succeeds u t new_id now name description db c Hu Hfresh).
  cbn [fst].
  split; [|split].
  - unfold is_public_room. cbn [chat_rooms with_chat_rooms].
    rewrite existsb_app. simpl. rewrite String.eqb_refl. simpl.
    apply orb_true_r.
  - reflexivity.
  - unfold memberships. cbn [room_members with_chat_rooms].
    apply filter_none.
    apply not_true_is_false. intros Hex. apply existsb_exists in Hex.
    destruct Hex as [m [Hin Hm]]. apply is_membership_spec in Hm.
    destruct Hm as [Hr _]. specialize (Hfk m Hin). rewrite Hr in Hfk.
    congruence.
Qed.

Lemma createRoom_then_joinRoom_witness :
  let db' := Client.joinRoom "u-alice" "r1" "m1" 11
               (fst (Client.createRoom (Some "u-alice") 0 "r1" 10 "lobby"
                       None (two_users, Client.mount 0))) in
  is_public_room db' "r1" = true
  /\ room_members db' = room_members two_users
  /\ memberships db' "r1" "u-alice" = [].
Proof.
  apply (createRoom_then_joinRoom "u-alice" "u-alice" 0 "r1" "m1" 10 11
           "lobby" None two_users (Client.mount 0)).
  - simpl. intros m [].
  - reflexivity.
  - reflexivity.
  - reflexivity.
Defined.

(** X5: the sidebar and the table stay in step.  Whatever its arguments and
    its outcome, [createRoom] adds to the rooms of the client exactly the
    rows it added to [chat_rooms], at most one, and touches no other table;
    when it adds none, nothing at all has changed. *)
Theorem createRoom_client_follows_table :
  forall (cur : option uuid) (t : Z) (new_id : uuid) (now : timestamptz)
         (name : string) (description : option string)
         (db : Db) (c : Client.Component),
    let w := Client.createRoom cur t new_id now name description (db, c) in
    exists added,
      chat_rooms (fst w) = chat_rooms db ++ added
      /\ Client.rooms (snd w) = Client.rooms c ++ map Client.of_row added
      /\ (List.length added <= 1)%nat
      /\ fst w = with_chat_rooms (chat_rooms db ++ added) db
      /\ (added = [] -> w = (db, c)).
Proof.
  intros cur t new_id now name description db c. cbv zeta.
  assert (Hsame : exists added : list ChatRooms.row,
             chat_rooms db = chat_rooms db ++ added
             /\ Client.rooms c = Client.rooms c ++ map Client.of_row added
             /\ (List.length added <= 1)%nat
             /\ db = with_chat_rooms (chat_rooms db ++ added) db
             /\ (added = [] -> (db, c) = (db, c))).
  { exists []. simpl. rewrite !app_nil_r. repeat split; [lia|].
    destruct db; reflexivity. }
  unfold Client.createRoom. destruct cur as [u|]; [|exact Hsame].
  destruct (Sql.insert_chat_rooms _ _ _ _ _) as [[db' r]|e] eqn:E;
    [|exact Hsame].
  unfold Sql.insert_chat_rooms in E.
  apply check_Ok in E. destruct E as [_ E]. simpl in E.
  apply check_Ok in E. destruct E as [_ E].
  apply check_Ok in E. destruct E as [_ E]. injection E as <- <-.
  eexists [_]. cbn [fst snd chat_rooms with_chat_rooms].
  split; [reflexivity|]. split.
  - unfold Client.setActiveRoom, Client.setRooms. cbn [Client.rooms].
    destruct (Nat.eqb _ _); reflexivity.
  - split; [simpl; lia|]. split; [reflexivity|]. discriminate.
Qed.

(** X6: a room made by [createRoom] is in the list every caller fetches next,
    signed in or not, and so in the rooms of every client whose query
    resolves to that list. *)
Theorem created_room_listed_for_everyone :
  forall (u : uuid) (t : Z) (new_id : uuid) (now : timestamptz)
         (name : string) (description : option string)
         (db : Db) (c : Client.Component)
         (uid : option uuid) (t' : Z) (other : Client.Component),
    user_exists db u = true ->
    room_exists db new_id = false ->
    let db' := fst (Client.createRoom (Some u) t new_id now name description
                      (db, c)) in
    In (created_room u new_id now name description)
       (Client.listRooms uid db')
    /\ In (Client.of_row (created_room u new_id now name description))
          (Client.rooms
             (Client.fetchRooms t'
                (Client.resolved (Some (Client.listRooms uid db'))) other)).
Proof.
  intros u t new_id now name description db c uid t' other Hu Hfresh.
  cbv zeta.
  rewrite (createRoom_succeeds u t new_id now name description db c Hu Hfresh).
  cbn [fst].
  assert (Hin : In (created_room u new_id now name description)
                   (Client.listRooms uid
                      (with_chat_rooms
                         (chat_rooms db
                          ++ [created_room u new_id now name description])
                         db))).
  { unfold Client.listRooms. rewrite select_chat_rooms_all.
    eapply Permutation_in.
    - apply Permutation_sym. apply order_by_created_at_perm.
    - cbn [chat_rooms with_chat_rooms]. apply in_or_app. right. now left. }
  split; [exact Hin|].
  assert (Hrooms : forall data,
            Client.rooms (Client.fetchRooms t' (Client.resolved (Some data))
                            other)
            = map Client.of_row data).
  { intros data. unfold Client.fetchRooms, Client.setRooms.
    destruct data; destruct (Nat.eqb _ _); reflexivity. }
  rewrite Hrooms. apply in_map. exact Hin.
Qed.

Lemma created_room_listed_for_everyone_witness :
  let db' := fst (Client.createRoom (Some "u-alice") 0 "r1" 10 "lobby" None
                    (two_users, Client.mount 0)) in
  In (created_room "u-alice" "r1" 10 "lobby" None)
     (Client.listRooms None db')
  /\ In (Client.of_row (created_room "u-alice" "r1" 10 "lobby" None))
        (Client.rooms
           (Client.fetchRooms 5
              (Client.resolved (Some (Client.listRooms None db')))
              (Client.mount 0))).
Proof.
  apply (created_room_listed_for_everyone "u-alice" 0 "r1" 10 "lobby" None
           two_users (Client.mount 0) None 5 (Client.mount 0)); reflexivity.
Defined.

(** An UPDATE that goes through keeps every row the policy does not let
    through for the caller. *)
Lemma update_chat_rooms_keeps : forall uid rid a db db' r,
  Sql.update_chat_rooms uid rid a db = Ok db' ->
  In r (chat_rooms db) ->
  Policy.chat_rooms_update uid r = false ->
  In r (chat_rooms db').
Proof.
  intros uid rid a db db' r H Hin Hpol. unfold Sql.update_chat_rooms in H.
  apply check_Ok in H. destruct H as [_ H].
  apply check_Ok in H. destruct H as [_ H]. injection H as <-.
  cbn [chat_rooms with_chat_rooms]. apply in_map_iff. exists r.
  split; [|exact Hin]. now rewrite Hpol, andb_false_r.
Qed.

(** X7: [createChatRoom] names no creator and the table has no default for
    [created_by], so the room it stores has none; and whoever then updates
    [chat_rooms], with whatever SET list, leaves that room as it is. *)
Theorem createChatRoom_room_is_ownerless :
  forall (user : option uuid) (new_id : uuid) (now : timestamptz)
         (roomName : string) (desc : option string) (db db' : Db),
    Client.createChatRoom user new_id now roomName desc db = inl db' ->
    exists r,
      chat_rooms db' = chat_rooms db ++ [r]
      /\ ChatRooms.id r = new_id
      /\ ChatRooms.name r = roomName
      /\ ChatRooms.created_by r = None
      /\ forall uid rid a db'',
           Sql.update_chat_rooms uid rid a db' = Ok db'' ->
           In r (chat_rooms db'').
Proof.
  intros user new_id now roomName desc db db' H.
  unfold Client.createChatRoom in H. destruct user as [x|]; [|discriminate].
  destruct (Sql.insert_chat_rooms _ _ _ _ _) as [[d r]|e] eqn:E;
    [|discriminate].
  injection H as <-. unfold Sql.insert_chat_rooms in E.
  apply check_Ok in E. destruct E as [_ E]. simpl in E.
  apply check_Ok in E. destruct E as [_ E]. injection E as <- <-.
  eexists. split; [reflexivity|]. repeat split.
  intros uid rid a db'' Hupd.
  eapply update_chat_rooms_keeps; [exact Hupd | |].
  - cbn [chat_rooms with_chat_rooms]. apply in_or_app. right. now left.
  - unfold Policy.chat_rooms_update. simpl. destruct uid; reflexivity.
Qed.

Lemma createChatRoom_room_is_ownerless_witness :
  exists r,
    chat_rooms
      (with_chat_rooms
         [ {| ChatRooms.id := "r3"; ChatRooms.name := "lounge";
              ChatRooms.description := None; ChatRooms.created_by := None;
              ChatRooms.is_private := false; ChatRooms.created_at := 10;
              ChatRooms.updated_at := 10 |} ] two_users)
    = chat_rooms two_users ++ [r]
    /\ ChatRooms.id r = "r3"
    /\ ChatRooms.name r = "lounge"
    /\ ChatRooms.created_by r = None
    /\ forall uid rid a db'',
         Sql.update_chat_rooms uid rid a
           (with_chat_rooms
              [ {| ChatRooms.id := "r3"; ChatRooms.name := "lounge";
                   ChatRooms.description := None;
                   ChatRooms.created_by := None;
                   ChatRooms.is_private := false; ChatRooms.created_at := 10;
                   ChatRooms.updated_at := 10 |} ] two_users) = Ok db'' ->
         In r (chat_rooms db'').
Proof.
  apply (createChatRoom_room_is_ownerless (Some "u-alice") "r3" 10 "lounge"
           None two_users).
  reflexivity.
Defined.

Lemma forallb_false_in : forall (A : Type) (f : A -> bool) (l : list A) x,
  In x l -> f x = false -> forallb f l = false.
Proof.
  intros A f l x Hin Hx. apply not_true_is_false. intros Hall.
  rewrite forallb_forall in Hall. specialize (Hall x Hin). congruence.
Qed.

(** X8: a creator cannot hand a room over.  An UPDATE by the creator that
    sets [created_by] to anyone else, or to NULL, is refused by the policy
    (which applies to the updated row as well), whatever else it sets. *)
Theorem creator_cannot_transfer_room :
  forall (db : Db) (u : uuid) (r : ChatRooms.row) (a : ChatRooms.assignment)
         (owner : option uuid),
    In r (chat_rooms db) ->
    ChatRooms.created_by r = Some u ->
    ChatRooms.set_created_by a = Some owner ->
    owner <> Some u ->
    Sql.update_chat_rooms (Some u) (ChatRooms.id r) a db = Err rls_violation.
Proof.
  intros db u r a owner Hin Hby Hset Hother. unfold Sql.update_chat_rooms.
  rewrite (forallb_false_in _ _ _ (Sql.assign_chat_room a r)).
  - reflexivity.
  - apply in_map. apply filter_In. split; [exact Hin|].
    unfold Policy.chat_rooms_update. rewrite Hby. simpl.
    now rewrite !String.eqb_refl.
  - unfold Policy.chat_rooms_update, Sql.assign_chat_room. simpl.
    rewrite Hset. simpl. destruct owner as [o|]; [|reflexivity].
    apply String.eqb_neq. congruence.
Qed.

Lemma creator_cannot_transfer_room_witness :
  Sql.update_chat_rooms (Some "u-alice")
    (ChatRooms.id (created_room "u-alice" "r1" 10 "lobby" None))
    {| ChatRooms.set_name := None; ChatRooms.set_description := None;
       ChatRooms.set_created_by := Some (Some "u-bob");
       ChatRooms.set_is_private := None |}
    one_public_room
  = Err rls_violation.
Proof.
  apply (creator_cannot_transfer_room one_public_room "u-alice"
           (created_room "u-alice" "r1" 10 "lobby" None) _ (Some "u-bob")).
  - simpl. left. reflexivity.
  - reflexivity.
  - reflexivity.
  - discriminate.
Defined.

(** ** The default rooms *)

Lemma room_exists_app : forall db l r k,
  room_exists (with_chat_rooms (l ++ [r]) db) k
  = has_key k (map ChatRooms.id l) || String.eqb k (ChatRooms.id r).
Proof.
  intros db l r k. unfold room_exists, has_key.
  cbn [chat_rooms with_chat_rooms]. rewrite map_app, existsb_app. simpl.
  now rewrite orb_false_r.
Qed.

Lemma insert_default_room_each : forall now xs db,
  NoDup (map fst xs) ->
  (forall x, In x xs -> room_exists db (fst x) = false) ->
  fold_left (Migration.insert_default_room now) xs db
  = with_chat_rooms
      (chat_rooms db
       ++ map (fun x => Migration.default_room (fst x) now (snd x)) xs)
      db.
Proof.
  intros now. induction xs as [|x xs IH]; intros db Hnd Hfresh; simpl.
  - rewrite app_nil_r. destruct db; reflexivity.
  - inversion Hnd as [|k ks Hx Hnd']; subst.
    unfold Migration.insert_default_room at 2.
    rewrite (Hfresh x (or_introl eq_refl)).
    rewrite IH.
    + cbn [chat_rooms with_chat_rooms]. rewrite <- app_assoc. reflexivity.
    + exact Hnd'.
    + intros y Hy. rewrite room_exists_app.
      fold (room_exists db (fst y)). rewrite (Hfresh y (or_intror Hy)).
      cbn [Migration.default_room ChatRooms.id orb].
      apply String.eqb_neq. intros Heq. apply Hx. rewrite <- Heq.
      now apply in_map.
Qed.

Lemma insert_default_rooms_rows : forall gen now db,
  NoDup (map gen (seq 0 4)) ->
  (forall k, In k (map gen (seq 0 4)) -> room_exists db k = false) ->
  Migration.insert_default_rooms gen now db
  = with_chat_rooms
      (chat_rooms db
       ++ map (fun x => Migration.default_room (fst x) now (snd x))
              (combine (map gen (seq 0 4)) Migration.default_rooms))
      db.
Proof.
  intros gen now db Hnd Hfresh. unfold Migration.insert_default_rooms.
  apply insert_default_room_each.
  - exact Hnd.
  - intros x Hx. apply Hfresh.
    destruct x as [k d]. apply in_combine_l in Hx. exact Hx.
Qed.

(** X9: the seeding statement, given four new and distinct ids, appends the
    rooms general, random, tech-talk and announcements, in this order, all of
    them public and without a creator, and touches nothing else; these are
    the names the client shows as mock rooms.  No caller can update such a
    room afterwards. *)
Theorem insert_default_rooms_appends :
  forall (gen : nat -> uuid) (now : timestamptz) (db : Db),
    NoDup (map gen (seq 0 4)) ->
    (forall k, In k (map gen (seq 0 4)) -> room_exists db k = false) ->
    let db' := Migration.insert_default_rooms gen now db in
    exists added,
      db' = with_chat_rooms (chat_rooms db ++ added) db
      /\ map ChatRooms.id added = map gen (seq 0 4)
      /\ map ChatRooms.name added
         = ["general"; "random"; "tech-talk"; "announcements"]
      /\ (forall date,
            map ChatRooms.name added
            = map Client.name (Client.mockRooms date)
            /\ map ChatRooms.description added
               = map Client.description (Client.mockRooms date))
      /\ (forall r, In r added ->
            ChatRooms.is_private r = false
            /\ ChatRooms.created_by r = None
            /\ forall uid, Policy.chat_rooms_update uid r = false).
Proof.
  intros gen now db Hdist Hfresh. cbv zeta.
  rewrite (insert_default_rooms_rows gen now db Hdist Hfresh).
  eexists. split; [reflexivity|]. split; [reflexivity|].
  split; [reflexivity|]. split; [intros date; split; reflexivity|].
  intros r Hr. simpl in Hr.
  destruct Hr as [<-|[<-|[<-|[<-|[]]]]]; repeat split;
    intros [uid|]; reflexivity.
Qed.

Lemma insert_default_rooms_appends_witness :
  let db' := Migration.insert_default_rooms
               (fun k => nth k ["seed-0"; "seed-1"; "seed-2"; "seed-3"]
                             EmptyString) 0 no_users in
  exists added,
    db' = with_chat_rooms (chat_rooms no_users ++ added) no_users
    /\ map ChatRooms.id added
       = map (fun k => nth k ["seed-0"; "seed-1"; "seed-2"; "seed-3"]
                           EmptyString) (seq 0 4)
    /\ map ChatRooms.name added
       = ["general"; "random"; "tech-talk"; "announcements"]
    /\ (forall date,
          map ChatRooms.name added = map Client.name (Client.mockRooms date)
          /\ map ChatRooms.description added
             = map Client.description (Client.mockRooms date))
    /\ (forall r, In r added ->
          ChatRooms.is_private r = false
          /\ ChatRooms.created_by r = None
          /\ forall uid, Policy.chat_rooms_update uid r = false).
Proof.
  apply (insert_default_rooms_appends
           (fun k => nth k ["seed-0"; "seed-1"; "seed-2"; "seed-3"]
                         EmptyString) 0 no_users).
  - simpl. repeat constructor; simpl; intuition discriminate.
  - intros k Hk. reflexivity.
Defined.

(** X10: ON CONFLICT DO NOTHING does not make the seeding statement safe to
    repeat.  Nothing but the generated primary key can conflict, so a second
    run, with its own new ids, stores the four rooms a second time: each of
    the four names is then carried by one room more than before. *)
Theorem insert_default_rooms_twice_duplicates :
  forall (gen gen' : nat -> uuid) (now now' : timestamptz) (db : Db),
    NoDup (map gen (seq 0 4)) ->
    (forall k, In k (map gen (seq 0 4)) -> room_exists db k = false) ->
    NoDup (map gen' (seq 0 4)) ->
    (forall k, In k (map gen' (seq 0 4)) ->
               room_exists (Migration.insert_default_rooms gen now db) k
               = false) ->
    map ChatRooms.name
      (chat_rooms
         (Migration.insert_default_rooms gen' now'
            (Migration.insert_default_rooms gen now db)))
    = map ChatRooms.name (chat_rooms db)
      ++ ["general"; "random"; "tech-talk"; "announcements"]
      ++ ["general"; "random"; "tech-talk"; "announcements"].
Proof.
  intros gen gen' now now' db Hdist Hfresh Hdist' Hfresh'.
  rewrite (insert_default_rooms_rows gen' now' _ Hdist' Hfresh').
  rewrite (insert_default_rooms_rows gen now db Hdist Hfresh).
  cbn [chat_rooms with_chat_rooms]. rewrite !map_app, <- app_assoc.
  reflexivity.
Qed.

Lemma insert_default_rooms_twice_duplicates_witness :
  map ChatRooms.name
    (chat_rooms
       (Migration.insert_default_rooms
          (fun k => nth k ["again-0"; "again-1"; "again-2"; "again-3"]
                        EmptyString) 5
          (Migration.insert_default_rooms
             (fun k => nth k ["seed-0"; "seed-1"; "seed-2"; "seed-3"]
                           EmptyString) 0 no_users)))
  = map ChatRooms.name (chat_rooms no_users)
    ++ ["general"; "random"; "tech-talk"; "announcements"]
    ++ ["general"; "random"; "tech-talk"; "announcements"].
Proof.
  apply (insert_default_rooms_twice_duplicates
           (fun k => nth k ["seed-0"; "seed-1"; "seed-2"; "seed-3"]
                         EmptyString)
           (fun k => nth k ["again-0"; "again-1"; "again-2"; "again-3"]
                         EmptyString) 0 5 no_users).
  - simpl. repeat constructor; simpl; intuition discriminate.
  - intros k Hk. reflexivity.
  - simpl. repeat constructor; simpl; intuition discriminate.
  - intros k Hk. simpl in Hk.
    destruct Hk as [<-|[<-|[<-|[<-|[]]]]]; reflexivity.
Defined.

(** ** The rooms of the client over time *)

Lemma fetchRooms_rooms : forall t data c,
  Client.rooms (Client.fetchRooms t (Client.resolved (Some data)) c)
  = map Client.of_row data
  /\ Client.effect_length
       (Client.fetchRooms t (Client.resolved (Some data)) c)
     = List.length data
  /\ Client.activeRoom (Client.fetchRooms t (Client.resolved (Some data)) c)
     = match data with
       | first :: _ => Some (Client.of_row first)
       | [] => Client.activeRoom c
       end.
Proof.
  intros t data c. unfold Client.fetchRooms, Client.setRooms.
  rewrite length_map.
  destruct data as [|first rest]; destruct (Nat.eqb _ _) eqn:E;
    cbn [Client.rooms Client.effect_length Client.activeRoom
         Client.setActiveRoom]; repeat split;
    try (apply Nat.eqb_eq in E; symmetry; exact E).
Qed.

(** X11: real rooms that arrive after the mock rooms were put in place
    replace them, however late, and the first real room becomes the active
    room in place of the mock room 'general'. *)
Theorem late_rooms_replace_mock_rooms :
  forall (t0 t : Z) (date : nat -> timestamptz)
         (first : ChatRooms.row) (rest : list ChatRooms.row),
    let mocked := Client.tick (t0 + 3000) date (Client.mount t0) in
    let c := Client.fetchRooms t (Client.resolved (Some (first :: rest)))
               mocked in
    Client.rooms mocked = Client.mockRooms date
    /\ Client.rooms c = map Client.of_row (first :: rest)
    /\ Client.activeRoom c = Some (Client.of_row first).
Proof.
  intros t0 t date first rest. cbv zeta.
  destruct (fetchRooms_rooms t (first :: rest)
              (Client.tick (t0 + 3000) date (Client.mount t0)))
    as [Hr [_ Ha]].
  split; [|split; assumption].
  unfold Client.tick. simpl. rewrite Z.leb_refl. reflexivity.
Qed.

Lemma tick_with_rooms : forall t date c,
  Client.effect_length c <> 0%nat ->
  Client.rooms (Client.tick t date c) = Client.rooms c
  /\ Client.effect_length (Client.tick t date c) = Client.effect_length c
  /\ Client.activeRoom (Client.tick t date c) = Client.activeRoom c.
Proof.
  intros t date c Hlen. unfold Client.tick, Client.on_timeout.
  destruct (Client.timeout c) as [due|]; [|repeat split].
  destruct (due <=? t); [|repeat split].
  cbn [Client.effect_length].
  destruct (Client.effect_length c); [congruence|]. repeat split.
Qed.

(** X12: once the query has brought at least one room, no timer, whenever and
    however often it fires, puts the mock rooms in their place or changes the
    active room; this holds whatever the state of the component was before,
    the mock rooms included. *)
Theorem no_mock_rooms_once_rooms_arrived :
  forall (t : Z) (first : ChatRooms.row) (rest : list ChatRooms.row)
         (c0 : Client.Component) (ticks : list (Z * (nat -> timestamptz))),
    let c := fold_left (fun c x => Client.tick (fst x) (snd x) c) ticks
               (Client.fetchRooms t (Client.resolved (Some (first :: rest)))
                  c0) in
    Client.rooms c = map Client.of_row (first :: rest)
    /\ Client.activeRoom c = Some (Client.of_row first).
Proof.
  intros t first rest c0 ticks. cbv zeta.
  destruct (fetchRooms_rooms t (first :: rest) c0) as [Hr [He Ha]].
  revert Hr He Ha.
  generalize (Client.fetchRooms t (Client.resolved (Some (first :: rest))) c0).
  induction ticks as [|x ticks IH]; intros c Hr He Ha; simpl.
  - split; assumption.
  - destruct (tick_with_rooms (fst x) (snd x) c) as [Hr' [He' Ha']].
    + rewrite He. discriminate.
    + apply IH; congruence.
Qed.

(** ** Messages and reactions: what is refused *)

(** X13: a post without content is refused with a not-null violation,
    whatever else it names; a post with a new id that refers to a user or a
    room that does not exist, or replies to a message that is neither stored
    nor the post itself, is refused with a foreign-key violation. *)
Theorem insert_messages_refused :
  forall (db : Db) (u room new_id : uuid) (now : timestamptz)
         (content : text) (reply_to : option uuid),
    Sql.insert_messages (Some u) new_id now
      {| Messages.v_content := None; Messages.v_user_id := u;
         Messages.v_room_id := room; Messages.v_reply_to := reply_to |} db
    = Err not_null_violation
    /\ (message_exists db new_id = false ->
        user_exists db u = false \/ room_exists db room = false
        \/ (exists k, reply_to = Some k /\ k <> new_id
                      /\ message_exists db k = false) ->
        Sql.insert_messages (Some u) new_id now
          (post_values u room content reply_to) db
        = Err foreign_key_violation).
Proof.
  intros db u room new_id now content reply_to.
  unfold Sql.insert_messages, Policy.messages_insert.
  rewrite insert_messages_rewritten. cbn [bind require].
  cbn [Policy.authenticated eq_nullable post_values Messages.v_user_id
       Messages.v_content Messages.v_room_id Messages.v_reply_to andb].
  rewrite String.eqb_refl. cbn [bind require].
  split; [reflexivity|]. intros Hfresh Hmissing.
  rewrite Hfresh. cbn [negb bind require].
  change (user_exists
            (with_messages
               (messages db
                ++ [Sql.message_row new_id now content
                      (post_values u room content reply_to)]) db) u)
    with (user_exists db u).
  change (room_exists
            (with_messages
               (messages db
                ++ [Sql.message_row new_id now content
                      (post_values u room content reply_to)]) db) room)
    with (room_exists db room).
  destruct Hmissing as [H|[H|[k [-> [Hk H]]]]].
  - rewrite H. reflexivity.
  - rewrite H, andb_false_r. reflexivity.
  - cbn [fk_nullable]. rewrite message_exists_app, H.
    apply String.eqb_neq in Hk. cbn [Sql.message_row Messages.id].
    rewrite Hk. rewrite andb_false_r. reflexivity.
Qed.

Lemma insert_messages_refused_witness :
  Sql.insert_messages (Some "u-bob") "m2" 30
    {| Messages.v_content := None; Messages.v_user_id := "u-bob";
       Messages.v_room_id := "r1"; Messages.v_reply_to := Some "m9" |}
    one_message
  = Err not_null_violation
  /\ Sql.insert_messages (Some "u-bob") "m2" 30
       (post_values "u-bob" "r1" "hi" (Some "m9")) one_message
     = Err foreign_key_violation.
Proof.
  destruct (insert_messages_refused one_message "u-bob" "r1" "m2" 30 "hi"
              (Some "m9")) as [Hnull Hfk].
  split; [exact Hnull|]. apply Hfk.
  - reflexivity.
  - right. right. exists "m9". repeat split. discriminate.
Defined.

(** A post that replies to itself is stored: the foreign key is checked with
    the row in the table. *)
Example reply_to_itself :
  is_ok (Sql.insert_messages (Some "u-bob") "m2" 30
           (post_values "u-bob" "r1" "hi" (Some "m2")) one_message)
  = true.
Proof. reflexivity. Qed.

(** X14: nobody can touch the reactions of somebody else.  For a caller other
    than [u], signed in or not, storing a reaction under the name of [u] is
    refused by the policy, and deleting a reaction of [u] deletes nothing. *)
Theorem reactions_of_others_untouched :
  forall (uid : option uuid) (u m new_id : uuid) (e : text)
         (now : timestamptz) (db : Db),
    uid <> Some u ->
    Sql.insert_message_reactions uid new_id now m u e db = Err rls_violation
    /\ Sql.delete_message_reactions uid m u e db = db.
Proof.
  intros uid u m new_id e now db Hother.
  assert (Hpol : eq_nullable uid u = false).
  { apply not_true_is_false. intros H. apply eq_nullable_spec in H.
    contradiction. }
  split.
  - unfold Sql.insert_message_reactions, Policy.message_reactions_all.
    simpl. rewrite Hpol. reflexivity.
  - apply delete_message_reactions_unchanged.
Qed.

Lemma reactions_of_others_untouched_witness :
  Sql.insert_message_reactions (Some "u-alice") "x1" 30 "m1" "u-bob" "+1"
    one_message = Err rls_violation
  /\ Sql.delete_message_reactions (Some "u-alice") "m1" "u-bob" "+1"
       one_message = one_message.
Proof.
  apply (reactions_of_others_untouched (Some "u-alice") "u-bob" "m1" "x1"
           "+1" 30 one_message).
  discriminate.
Defined.

(** ** Signup and profiles *)

(** X15: two users cannot sign up with emails that have the same part before
    the '@'.  For a new user without a username in the metadata, the signup is
    refused when a profile already has the username the trigger derives from
    the email: with a unique violation when the avatar expression of the
    trigger evaluates, as it does for an email without a backslash, and with
    the error of the cast of the email otherwise. *)
Theorem signup_refused_when_username_taken :
  forall (now : timestamptz) (new : AuthUsers.row) (db : Db) (e : text),
    Trigger.json_text (AuthUsers.raw_user_meta_data new) "username" = None ->
    AuthUsers.email new = Some e ->
    user_exists db (AuthUsers.id new) = false ->
    username_taken db (Some (substring_before "@" e)) = true ->
    Trigger.insert_auth_users now new db
    = match Trigger.avatar_url_of new with
      | Ok _ => Err unique_violation
      | Err x => Err x
      end
    /\ (plain e -> Trigger.insert_auth_users now new db = Err unique_violation).
Proof.
  intros now new db e Hname Hemail Hu Htaken.
  assert (H : Trigger.insert_auth_users now new db
              = match Trigger.avatar_url_of new with
                | Ok _ => Err unique_violation
                | Err x => Err x
                end).
  { unfold Trigger.insert_auth_users. rewrite Hu. cbn [negb].
    rewrite check_pass by reflexivity.
    unfold Trigger.handle_new_user.
    destruct (Trigger.avatar_url_of new) as [a|x]; [|reflexivity].
    cbn [bind]. unfold Sql.insert_profiles_definer, Trigger.username_of.
    rewrite Hname, Hemail. cbn [COALESCE Trigger.strict].
    rewrite split_part_first.
    assert (Htaken' : username_taken
                        (with_auth_users (auth_users db ++ [new]) db)
                        (Some (substring_before "@" e)) = true)
      by exact Htaken.
    rewrite Htaken'. cbn [negb]. rewrite andb_false_r. reflexivity. }
  split; [exact H|]. intros Hplain. rewrite H.
  destruct (avatar_url_of_plain new e Hemail Hplain) as [a ->]. reflexivity.
Qed.

Lemma signup_refused_when_username_taken_witness :
  Trigger.insert_auth_users 60
    {| AuthUsers.id := "u-alice2";
       AuthUsers.email := Some "alice@else\where.org";
       AuthUsers.raw_user_meta_data := [] |} two_users
  = match Trigger.avatar_url_of
            {| AuthUsers.id := "u-alice2";
               AuthUsers.email := Some "alice@else\where.org";
               AuthUsers.raw_user_meta_data := [] |} with
    | Ok _ => Err unique_violation
    | Err x => Err x
    end
  /\ (plain "alice@else\where.org" ->
      Trigger.insert_auth_users 60
        {| AuthUsers.id := "u-alice2";
           AuthUsers.email := Some "alice@else\where.org";
           AuthUsers.raw_user_meta_data := [] |} two_users
      = Err unique_violation).
Proof.
  apply (signup_refused_when_username_taken 60 _ two_users
           "alice@else\where.org"); reflexivity.
Defined.

(** The two outcomes: with "alice@elsewhere.org" the signup meets the UNIQUE
    constraint, with "alice@else\where.org" the cast fails first. *)
Example signup_with_taken_username_values :
  Trigger.insert_auth_users 60
    {| AuthUsers.id := "u-alice2";
       AuthUsers.email := Some "alice@elsewhere.org";
       AuthUsers.raw_user_meta_data := [] |} two_users
  = Err unique_violation
  /\ Trigger.insert_auth_users 60
       {| AuthUsers.id := "u-alice2";
          AuthUsers.email := Some "alice@else\where.org";
          AuthUsers.raw_user_meta_data := [] |} two_users
     = Err invalid_text_representation.
Proof. split; reflexivity. Qed.

Lemma same_username_sym : forall a b,
  Presence.same_username a b = Presence.same_username b a.
Proof.
  intros [a|] [b|]; simpl; try reflexivity. apply String.eqb_sym.
Qed.

Lemma username_taken_spec : forall db n,
  username_taken db n = false ->
  forall q, In q (profiles db) ->
            Presence.same_username n (Profiles.username q) = false.
Proof.
  intros db n H q Hq. unfold username_taken in H.
  apply not_true_is_false. intros Hs.
  assert (Hex : existsb (fun q => Presence.same_username n
                                    (Profiles.username q))
                        (profiles db) = true).
  { apply existsb_exists. exists q. split; assumption. }
  unfold Presence.same_username in Hex. congruence.
Qed.

(** What a signup that went through has done, whatever the metadata. *)
Lemma insert_auth_users_inv : forall now new db db',
  Trigger.insert_auth_users now new db = Ok db' ->
  exists p,
    db' = with_profiles (profiles db ++ [p])
            (with_auth_users (auth_users db ++ [new]) db)
    /\ Profiles.id p = AuthUsers.id new
    /\ has_key (AuthUsers.id new) (map AuthUsers.id (auth_users db)) = false
    /\ has_key (AuthUsers.id new) (map Profiles.id (profiles db)) = false
    /\ username_taken db (Profiles.username p) = false.
Proof.
  intros now new db db' H. unfold Trigger.insert_auth_users in H.
  apply check_Ok in H. destruct H as [Hu H]. apply negb_true_iff in Hu.
  unfold Trigger.handle_new_user in H.
  destruct (Trigger.avatar_url_of new) as [a|x]; [|discriminate H].
  cbn [bind] in H. unfold Sql.insert_profiles_definer in H.
  apply check_Ok in H. destruct H as [Huniq H].
  apply andb_true_iff in Huniq. destruct Huniq as [Hp Hfree].
  apply negb_true_iff in Hp. apply negb_true_iff in Hfree.
  apply check_Ok in H. destruct H as [_ H]. injection H as <-.
  eexists. split; [reflexivity|]. repeat split; assumption.
Qed.

(** X16: a signup keeps the profiles consistent with the users: after it,
    as before, every user has a profile and every profile a user, and no id
    and no username is carried by two profiles. *)
Theorem signup_keeps_profiles_consistent :
  forall (now : timestamptz) (new : AuthUsers.row) (db db' : Db),
    profiles_consistent db ->
    Trigger.insert_auth_users now new db = Ok db' ->
    profiles_consistent db'.
Proof.
  intros now new db db' [Hnd [Huniq Hids]] H.
  apply insert_auth_users_inv in H.
  destruct H as [p [-> [Hid [Hu [Hp Hfree]]]]].
  unfold profiles_consistent.
  cbn [profiles auth_users with_profiles with_auth_users].
  split; [|split].
  - rewrite map_app. simpl. apply NoDup_app; [exact Hnd | | ].
    + repeat constructor. intros [].
    + intros k Hk [<-|[]]. rewrite Hid in Hk.
      apply has_key_in in Hk. congruence.
  - intros a b Ha Hb Hsame.
    apply in_app_or in Ha. apply in_app_or in Hb.
    destruct Ha as [Ha|[<-|[]]]; destruct Hb as [Hb|[<-|[]]].
    + now apply Huniq.
    + rewrite same_username_sym in Hsame.
      rewrite (username_taken_spec db _ Hfree a Ha) in Hsame.
      discriminate.
    + rewrite (username_taken_spec db _ Hfree b Hb) in Hsame.
      discriminate.
    + reflexivity.
  - intros k. rewrite !map_app, !in_app_iff. simpl. rewrite Hid, Hids.
    tauto.
Qed.

Lemma signup_keeps_profiles_consistent_witness :
  profiles_consistent
    (with_profiles
       (profiles two_users
        ++ [profile_of 50 "u-carol" "carol" "carol@example.com"])
       (with_auth_users (auth_users two_users ++ [carol]) two_users)).
Proof.
  apply (signup_keeps_profiles_consistent 50 carol two_users).
  - split; [|split].
    + simpl. repeat constructor; simpl; intuition discriminate.
    + intros p q Hp Hq Hs. simpl in Hp, Hq.
      destruct Hp as [<-|[<-|[]]]; destruct Hq as [<-|[<-|[]]];
        try reflexivity; discriminate Hs.
    + intros k. simpl. tauto.
  - reflexivity.
Defined.

(** X17: a user without email and without metadata gets a profile whose
    username and avatar_url are NULL, and such a signup is never refused for
    its username, whatever profiles exist: NULL collides with nothing. *)
Theorem signup_without_email :
  forall (now : timestamptz) (id : uuid) (db : Db),
    user_exists db id = false ->
    has_key id (map Profiles.id (profiles db)) = false ->
    exists p,
      Trigger.insert_auth_users now
        {| AuthUsers.id := id; AuthUsers.email := None;
           AuthUsers.raw_user_meta_data := [] |} db
      = Ok (with_profiles (profiles db ++ [p])
              (with_auth_users
                 (auth_users db
                  ++ [ {| AuthUsers.id := id; AuthUsers.email := None;
                          AuthUsers.raw_user_meta_data := [] |} ]) db))
      /\ Profiles.id p = id
      /\ Profiles.username p = None
      /\ Profiles.avatar_url p = None
      /\ Profiles.email p = None.
Proof.
  intros now id db Hu Hp.
  unfold Trigger.insert_auth_users. cbn [AuthUsers.id]. rewrite Hu.
  cbn [negb]. rewrite check_pass by reflexivity.
  unfold Trigger.handle_new_user, Trigger.avatar_url_of, Trigger.username_of.
  cbn [AuthUsers.id AuthUsers.email AuthUsers.raw_user_meta_data
       Trigger.json_text COALESCE Trigger.strict bind].
  unfold Sql.insert_profiles_definer. cbn [profiles with_auth_users].
  rewrite Hp.
  assert (Hfree : forall d, username_taken d None = false).
  { intros d. unfold username_taken.
    induction (profiles d) as [|q l IH]; simpl; [reflexivity | exact IH]. }
  rewrite Hfree. cbn [negb andb]. rewrite check_pass by reflexivity.
  rewrite check_pass.
  - eexists. split; [reflexivity|]. repeat split.
  - unfold user_exists. cbn [auth_users with_auth_users].
    apply has_key_in. rewrite map_app. apply in_or_app. right. now left.
Qed.

Lemma signup_without_email_witness :
  exists p,
    Trigger.insert_auth_users 70
      {| AuthUsers.id := "u-dave"; AuthUsers.email := None;
         AuthUsers.raw_user_meta_data := [] |} two_users
    = Ok (with_profiles (profiles two_users ++ [p])
            (with_auth_users
               (auth_users two_users
                ++ [ {| AuthUsers.id := "u-dave"; AuthUsers.email := None;
                        AuthUsers.raw_user_meta_data := [] |} ]) two_users))
    /\ Profiles.id p = "u-dave"
    /\ Profiles.username p = None
    /\ Profiles.avatar_url p = None
    /\ Profiles.email p = None.
Proof.
  apply (signup_without_email 70 "u-dave" two_users); reflexivity.
Defined.

(** ** Presence *)

Lemma existsb_profile_id : forall k (l : list Profiles.row),
  existsb (fun q => String.eqb (Profiles.id q) k) l
  = has_key k (map Profiles.id l).
Proof.
  intros k l. unfold has_key. induction l as [|q l IH]; [reflexivity|].
  cbn [map existsb]. f_equal; [apply String.eqb_sym | exact IH].
Qed.

(** What an upsert of a profile that went through has done. *)
Lemma upsert_profiles_inv : forall uid now v db db',
  Presence.upsert_profiles uid now v db = Ok db' ->
  uid = Some (Presence.v_id v)
  /\ ((has_key (Presence.v_id v) (map Profiles.id (profiles db)) = true
       /\ (forall q, In q (profiles db) ->
             Profiles.id q <> Presence.v_id v ->
             Presence.same_username (Presence.v_username v)
                                    (Profiles.username q) = false)
       /\ exists assign,
            (forall q, Profiles.id (assign q) = Presence.v_id v
                       /\ Profiles.username (assign q)
                          = Presence.keep (Presence.v_username v)
                                          (Profiles.username q))
            /\ db' = with_profiles
                       (map (fun q => if String.eqb (Profiles.id q)
                                                    (Presence.v_id v)
                                      then assign q else q)
                            (profiles db)) db)
      \/ (has_key (Presence.v_id v) (map Profiles.id (profiles db)) = false
          /\ user_exists db (Presence.v_id v) = true
          /\ exists p, Profiles.id p = Presence.v_id v
                       /\ db' = with_profiles (profiles db ++ [p]) db)).
Proof.
  intros uid now v db db' H. unfold Presence.upsert_profiles in H.
  apply check_Ok in H. destruct H as [Hpol H].
  unfold ProfilesPolicy.insert in Hpol. cbn [Profiles.id] in Hpol.
  apply eq_nullable_spec in Hpol. split; [exact Hpol|].
  rewrite existsb_profile_id in H.
  destruct (has_key (Presence.v_id v) (map Profiles.id (profiles db))).
  - left. split; [reflexivity|].
    apply check_Ok in H. destruct H as [_ H].
    apply check_Ok in H. destruct H as [Huniq H].
    apply negb_true_iff in Huniq. injection H as <-. split.
    + intros q Hq Hid. apply not_true_is_false. intros Hs.
      assert (Hex : existsb
                (fun q => negb (String.eqb (Profiles.id q) (Presence.v_id v))
                          && Presence.same_username (Presence.v_username v)
                                                    (Profiles.username q))
                (profiles db) = true).
      { apply existsb_exists. exists q. split; [exact Hq|].
        apply String.eqb_neq in Hid. now rewrite Hid, Hs. }
      congruence.
    + eexists. split; [|reflexivity]. intros q. split; reflexivity.
  - right. split; [reflexivity|].
    apply check_Ok in H. destruct H as [_ H].
    apply check_Ok in H. destruct H as [Hfk H]. injection H as <-.
    split; [exact Hfk|]. eexists. split; [|reflexivity]. reflexivity.
Qed.

(** X18: [updateUserPresence] writes the profile of its user only: whatever
    it does, and whether it goes through or not, the profiles of all other
    users are afterwards what they were, and no other table changes. *)
Theorem updateUserPresence_other_profiles_untouched :
  forall (user : AuthUsers.row) (t now : timestamptz) (db : Db),
    let db' := Presence.updateUserPresence user t now db in
    profiles_except (AuthUsers.id user) db'
    = profiles_except (AuthUsers.id user) db
    /\ db' = with_profiles (profiles db') db.
Proof.
  intros user t now db. cbv zeta. unfold Presence.updateUserPresence.
  destruct (Presence.upsert_profiles _ _ _ _) as [db'|e] eqn:E.
  2:{ split; [reflexivity | destruct db; reflexivity]. }
  apply upsert_profiles_inv in E. cbn [Presence.presence_values
    Presence.v_id] in E.
  destruct E as [_ [[_ [_ [assign [Hassign ->]]]]|[_ [_ [p [Hp ->]]]]]];
    (split; [|reflexivity]); unfold profiles_except;
    cbn [profiles with_profiles].
  - induction (profiles db) as [|q l IH]; simpl; [reflexivity|].
    destruct (String.eqb (Profiles.id q) (AuthUsers.id user)) eqn:Hq; simpl.
    + destruct (Hassign q) as [Hid _]. rewrite Hid, String.eqb_refl. simpl.
      exact IH.
    + rewrite Hq. simpl. now rewrite IH.
  - rewrite filter_app. simpl. rewrite Hp, String.eqb_refl. simpl.
    apply app_nil_r.
Qed.

Lemma split_first_before : forall s d,
  Js.split_first s d = substring_before d s.
Proof.
  intros s d. unfold Js.split_first.
  induction s as [|c r IH]; simpl; [reflexivity|].
  destruct (Ascii.eqb c d); [reflexivity|].
  destruct (split_fields r d) as [|f fs]; simpl in *; now rewrite <- IH.
Qed.

(** X19: the first [updateUserPresence] after the signup of a user with an
    email and no metadata keeps the username the trigger derived (client and
    trigger take the same part of the email), marks the user online at the
    time of the client, and replaces the avatar_url of the trigger, built on
    the base64 of the email, by one built on its percent-encoding;
    [created_at] and [updated_at] stay those of the signup. *)
Theorem first_presence_after_signup :
  forall (user : AuthUsers.row) (e : text) (signup t now : timestamptz)
         (db db1 : Db),
    AuthUsers.raw_user_meta_data user = [] ->
    AuthUsers.email user = Some e ->
    Trigger.insert_auth_users signup user db = Ok db1 ->
    profiles (Presence.updateUserPresence user t now db1)
    = profiles db
      ++ [ {| Profiles.id := AuthUsers.id user;
              Profiles.username := Some (substring_before "@" e);
              Profiles.avatar_url :=
                Some (Trigger.dicebear
                      ++ Js.encodeURIComponent (Js.or_default (Some e) "User"))
                  %string;
              Profiles.email := Some e;
              Profiles.last_seen := t;
              Profiles.is_online := true;
              Profiles.created_at := signup;
              Profiles.updated_at := signup |} ].
Proof.
  intros user e signup t now db db1 Hmeta Hemail H.
  unfold Trigger.insert_auth_users in H.
  apply check_Ok in H. destruct H as [_ H].
  unfold Trigger.handle_new_user in H.
  destruct (Trigger.avatar_url_of user) as [a|x]; [|discriminate H].
  cbn [bind] in H.
  unfold Sql.insert_profiles_definer, Trigger.username_of in H.
  rewrite Hmeta, Hemail in H.
  cbn [Trigger.json_text COALESCE Trigger.strict] in H.
  apply check_Ok in H. destruct H as [Huniq H].
  apply andb_true_iff in Huniq. destruct Huniq as [Hp Hfree].
  apply negb_true_iff in Hp. apply negb_true_iff in Hfree.
  apply check_Ok in H. destruct H as [_ H]. injection H as <-.
  rewrite split_part_first in *.
  assert (Hold : forall q, In q (profiles db) ->
            String.eqb (Profiles.id q) (AuthUsers.id user) = false).
  { intros q Hq. apply String.eqb_neq. intros Hid.
    assert (Hk : has_key (AuthUsers.id user) (map Profiles.id (profiles db))
                 = true)
      by (apply has_key_in; rewrite <- Hid; now apply in_map).
    cbn [profiles with_auth_users] in Hp. congruence. }
  assert (Hnames : forall q, In q (profiles db) ->
            Presence.same_username (Some (substring_before "@" e))
                                   (Profiles.username q) = false).
  { intros q Hq. apply (username_taken_spec _ _ Hfree). exact Hq. }
  unfold Presence.updateUserPresence, Presence.upsert_profiles,
    Presence.presence_values, ProfilesPolicy.insert, ProfilesPolicy.update.
  rewrite Hmeta, Hemail.
  cbn [Trigger.json_text Trigger.strict Js.or_else Presence.v_id
       Presence.v_username Presence.v_email Presence.v_avatar_url
       Presence.v_is_online Presence.v_last_seen Presence.keep
       Profiles.id eq_nullable profiles with_profiles with_auth_users].
  rewrite split_first_before.
  rewrite String.eqb_refl. rewrite check_pass by reflexivity.
  rewrite existsb_app. cbn [existsb Profiles.id].
  rewrite String.eqb_refl, orb_true_r.
  rewrite check_pass.
  2:{ apply andb_true_iff. split.
      - apply forallb_forall. intros q Hq. apply filter_In in Hq.
        destruct Hq as [_ Hq]. rewrite String.eqb_sym. exact Hq.
      - apply forallb_forall. intros q Hq. apply in_map_iff in Hq.
        destruct Hq as [q0 [<- _]]. cbn [Profiles.id].
        apply String.eqb_refl. }
  rewrite check_pass.
  2:{ apply negb_true_iff. apply not_true_is_false. intros Hex.
      apply existsb_exists in Hex. destruct Hex as [q [Hq Hclash]].
      apply andb_true_iff in Hclash. destruct Hclash as [Hid Hs].
      apply in_app_or in Hq. destruct Hq as [Hq|[<-|[]]].
      - destruct (substring_before "@" e) eqn:Hsb;
          cbn [Js.or_else] in Hs;
          rewrite (Hnames q Hq) in Hs; discriminate Hs.
      - cbn [Profiles.id] in Hid. rewrite String.eqb_refl in Hid.
        discriminate Hid. }
  cbn [profiles with_profiles]. rewrite map_app. f_equal.
  - rewrite <- (map_id (profiles db)) at 2. apply map_ext_in.
    intros q Hq. now rewrite (Hold q Hq).
  - cbn [map Profiles.id Profiles.username Profiles.avatar_url
         Profiles.email Profiles.created_at Profiles.updated_at].
    rewrite String.eqb_refl.
    destruct (substring_before "@" e); reflexivity.
Qed.

Lemma first_presence_after_signup_witness :
  profiles
    (Presence.updateUserPresence carol 80 81
       (with_profiles
          (profiles two_users
           ++ [profile_of 50 "u-carol" "carol" "carol@example.com"])
          (with_auth_users (auth_users two_users ++ [carol]) two_users)))
  = profiles two_users
    ++ [ {| Profiles.id := AuthUsers.id carol;
            Profiles.username :=
              Some (substring_before "@" "carol@example.com");
            Profiles.avatar_url :=
              Some (Trigger.dicebear
                    ++ Js.encodeURIComponent
                         (Js.or_default (Some "carol@example.com") "User"))
                %string;
            Profiles.email := Some "carol@example.com";
            Profiles.last_seen := 80;
            Profiles.is_online := true;
            Profiles.created_at := 50;
            Profiles.updated_at := 50 |} ].
Proof.
  apply (first_presence_after_signup carol "carol@example.com" 50 80 81
           two_users); reflexivity.
Defined.

Lemma same_profile_id : forall (l : list Profiles.row) a b,
  NoDup (map Profiles.id l) -> In a l -> In b l ->
  Profiles.id a = Profiles.id b -> a = b.
Proof.
  induction l as [|x l IH]; intros a b Hnd Ha Hb Hid; [destruct Ha|].
  simpl in Hnd. inversion Hnd as [|k ks Hx Hnd']; subst.
  destruct Ha as [<-|Ha]; destruct Hb as [<-|Hb].
  - reflexivity.
  - exfalso. apply Hx. rewrite Hid. now apply in_map.
  - exfalso. apply Hx. rewrite <- Hid. now apply in_map.
  - now apply IH.
Qed.

(** X20: [updateUserPresence] keeps the profiles consistent with the users:
    it never stores a second profile for a user, never a profile without a
    user, and never gives two profiles the same username. *)
Theorem updateUserPresence_keeps_profiles_consistent :
  forall (user : AuthUsers.row) (t now : timestamptz) (db : Db),
    profiles_consistent db ->
    profiles_consistent (Presence.updateUserPresence user t now db).
Proof.
  intros user t now db Hc. unfold Presence.updateUserPresence.
  destruct (Presence.upsert_profiles _ _ _ _) as [db'|e] eqn:E; [|exact Hc].
  destruct Hc as [Hnd [Huniq Hids]].
  apply upsert_profiles_inv in E.
  set (v := Presence.presence_values user t) in *.
  destruct E as [_ [[Hkey [Hclash [assign [Hassign ->]]]]
                   |[Hnokey [Huser _]]]].
  2:{ exfalso. unfold user_exists in Huser. apply has_key_in in Huser.
      apply Hids in Huser. apply has_key_in in Huser. congruence. }
  set (f := fun q => if String.eqb (Profiles.id q) (Presence.v_id v)
                     then assign q else q).
  assert (Hfid : forall q, Profiles.id (f q) = Profiles.id q).
  { intros q. unfold f.
    destruct (String.eqb (Profiles.id q) (Presence.v_id v)) eqn:Hq;
      [|reflexivity].
    apply String.eqb_eq in Hq. destruct (Hassign q) as [Hid _]. congruence. }
  assert (Hmap : map Profiles.id (map f (profiles db))
                 = map Profiles.id (profiles db)).
  { rewrite map_map. apply map_ext. exact Hfid. }
  unfold profiles_consistent.
  cbn [profiles auth_users with_profiles].
  rewrite Hmap. split; [exact Hnd|]. split; [|exact Hids].
  intros a b Ha Hb Hsame.
  apply in_map_iff in Ha. destruct Ha as [a0 [<- Ha0]].
  apply in_map_iff in Hb. destruct Hb as [b0 [<- Hb0]].
  assert (Hmixed : forall x y, In x (profiles db) -> In y (profiles db) ->
            String.eqb (Profiles.id x) (Presence.v_id v) = true ->
            String.eqb (Profiles.id y) (Presence.v_id v) = false ->
            Presence.same_username (Profiles.username (assign x))
                                   (Profiles.username y) = true ->
            False).
  { intros x y Hx Hy Hxid Hyid Hs.
    destruct (Hassign x) as [_ Hname]. rewrite Hname in Hs.
    apply String.eqb_neq in Hyid.
    destruct (Presence.v_username v) as [n|] eqn:Hn; cbn [Presence.keep] in Hs.
    - rewrite (Hclash y Hy Hyid) in Hs. discriminate Hs.
    - pose proof (Huniq x y Hx Hy Hs) as Hxy. subst y.
      apply String.eqb_eq in Hxid. contradiction. }
  unfold f in *.
  destruct (String.eqb (Profiles.id a0) (Presence.v_id v)) eqn:Hqa;
    destruct (String.eqb (Profiles.id b0) (Presence.v_id v)) eqn:Hqb.
  - apply String.eqb_eq in Hqa, Hqb.
    assert (a0 = b0) by (apply (same_profile_id (profiles db)); congruence).
    now subst.
  - exfalso. exact (Hmixed a0 b0 Ha0 Hb0 Hqa Hqb Hsame).
  - exfalso. rewrite same_username_sym in Hsame.
    exact (Hmixed b0 a0 Hb0 Ha0 Hqb Hqa Hsame).
  - now apply Huniq.
Qed.

Lemma updateUserPresence_keeps_profiles_consistent_witness :
  profiles_consistent (Presence.updateUserPresence alice 80 81 two_users).
Proof.
  apply (updateUserPresence_keeps_profiles_consistent alice 80 81 two_users).
  split; [|split].
  - simpl. repeat constructor; simpl; intuition discriminate.
  - intros p q Hp Hq Hs. simpl in Hp, Hq.
    destruct Hp as [<-|[<-|[]]]; destruct Hq as [<-|[<-|[]]];
      try reflexivity; discriminate Hs.
  - intros k. simpl. tauto.
Defined.

(** ** What [App] shows *)

Lemma last_cons_default : forall (A : Type) (l : list A) (x d d' : A),
  last (x :: l) d = last (x :: l) d'.
Proof.
  intros A l. induction l as [|y l IH]; intros x d d'; [reflexivity|].
  change (last (y :: l) d = last (y :: l) d'). apply IH.
Qed.

Lemma auth_changes_keep_flags : forall events s,
  forallb App.is_auth_change events = true ->
  App.loading (fold_left App.step events s) = App.loading s
  /\ App.connectionError (fold_left App.step events s)
     = App.connectionError s
  /\ App.user (fold_left App.step events s)
     = last (map (fun e => match e with
                           | App.auth_state_changed session => session
                           | _ => None
                           end) events)
            (App.user s).
Proof.
  induction events as [|e events IH]; intros s H; [repeat split|].
  simpl in H. apply andb_true_iff in H. destruct H as [He H].
  destruct e as [| |session]; try discriminate He.
  destruct (IH (App.step s (App.auth_state_changed session)) H)
    as [Hl [Hc Hu]].
  cbn [fold_left]. rewrite Hl, Hc, Hu. repeat split.
  cbn [map]. destruct events as [|e' events']; [reflexivity|].
  cbn [map App.step App.user].
  change (last (session :: ?x :: ?l) ?d) with (last (x :: l) d).
  apply last_cons_default.
Qed.

(** X21: as long as the session check of [initializeApp] has not come back,
    [App] shows the spinner, whatever auth changes are reported meanwhile,
    a signed-in session included. *)
Theorem app_spinner_until_session_checked :
  forall (events : list App.event),
    forallb App.is_auth_change events = true ->
    App.render (App.run events) = App.Spinner.
Proof.
  intros events H. unfold App.run, App.render.
  destruct (auth_changes_keep_flags events App.initial H) as [Hl _].
  rewrite Hl. reflexivity.
Qed.

Lemma app_spinner_until_session_checked_witness :
  App.render (App.run [App.auth_state_changed (Some alice);
                       App.auth_state_changed None;
                       App.auth_state_changed (Some bob)])
  = App.Spinner.
Proof.
  apply (app_spinner_until_session_checked
           [App.auth_state_changed (Some alice);
            App.auth_state_changed None;
            App.auth_state_changed (Some bob)]).
  reflexivity.
Defined.

(** X22: a failed session check is final.  After it, [App] shows the setup
    screen and keeps showing it whatever auth changes follow, a signed-in
    session included: no listener clears [connectionError]. *)
Theorem app_setup_screen_stays :
  forall (before after : list App.event),
    forallb App.is_auth_change after = true ->
    App.render (App.run (before ++ App.session_failed :: after))
    = App.SetupRequired.
Proof.
  intros before after H. unfold App.run. rewrite fold_left_app.
  cbn [fold_left]. unfold App.render.
  destruct (auth_changes_keep_flags after
              (App.step (fold_left App.step before App.initial)
                        App.session_failed) H) as [Hl [Hc _]].
  rewrite Hl, Hc. reflexivity.
Qed.

Lemma app_setup_screen_stays_witness :
  App.render (App.run ([App.auth_state_changed None]
                       ++ App.session_failed
                          :: [App.auth_state_changed (Some alice)]))
  = App.SetupRequired.
Proof.
  apply (app_setup_screen_stays [App.auth_state_changed None]
           [App.auth_state_changed (Some alice)]).
  reflexivity.
Defined.

(** X23: after a session check that went through, [App] shows the chat to
    the user of the latest session, the one of the check or of the last auth
    change since, and the sign-in form when that session has no user. *)
Theorem app_follows_latest_session :
  forall (before after : list App.event) (session : option AuthUsers.row),
    forallb App.is_auth_change after = true ->
    App.render (App.run (before ++ App.session_resolved session :: after))
    = match last (map (fun e => match e with
                                 | App.auth_state_changed s => s
                                 | _ => None
                                 end) after) session with
      | Some u => App.Chat u
      | None => App.AuthForm
      end.
Proof.
  intros before after session H. unfold App.run. rewrite fold_left_app.
  cbn [fold_left]. unfold App.render.
  destruct (auth_changes_keep_flags after
              (App.step (fold_left App.step before App.initial)
                        (App.session_resolved session)) H) as [Hl [Hc Hu]].
  rewrite Hl, Hc, Hu. reflexivity.
Qed.

Lemma app_follows_latest_session_witness :
  App.render (App.run ([App.session_failed]
                       ++ App.session_resolved (Some alice)
                          :: [App.auth_state_changed None;
                              App.auth_state_changed (Some bob)]))
  = match last (map (fun e => match e with
                               | App.auth_state_changed s => s
                               | _ => None
                               end)
                    [App.auth_state_changed None;
                     App.auth_state_changed (Some bob)]) (Some alice) with
    | Some u => App.Chat u
    | None => App.AuthForm
    end.
Proof.
  apply (app_follows_latest_session [App.session_failed]
           [App.auth_state_changed None; App.auth_state_changed (Some bob)]
           (Some alice)).
  reflexivity.
Defined.
